(** * CourseInsight Flask backend: a shallow embedding of the request handlers

    The development follows the three source files:
    - [Py]: the Python values and builtins the code relies on (JSON values,
      truthiness, [dict.get], [len], slicing, [str.lower], [str.split],
      formatting, logging, exceptions, [random.random]);
    - [kt_service]: [trace_student_knowledge];
    - [llm_service]: the question/content analysis helpers and the feedback
      generator;
    - [app]: the API-key decorator and the routes [/api/generate_feedback],
      [/api/analyze_question], [/api/analyze_course_content] and
      [/api/update_knowledge_graph].

    Handlers are computations over a [world] made of the log written so far
    and the state of the random generator; an exception is an explicit
    outcome, caught by [try_except] the way the routes catch [Exception]. *)

From Stdlib Require Import ZArith QArith List String Ascii Bool Lia.
From Stdlib Require Import DecimalString.
Import ListNotations.

Local Open Scope string_scope.
Local Open Scope list_scope.

(* ================================================================== *)
(** * Python values and builtins *)
(* ================================================================== *)

Module Py.

#[local] Set Warnings "-register-all".

(** A value decoded from (or encoded to) JSON.  An object is a [dict]: its
    fields in insertion order, looked up by key.  A [float] is carried by the
    rational it denotes; a [str] is a sequence of one-byte characters. *)
Inductive json : Type :=
| JNull
| JBool (b : bool)
| JInt (n : Z)
| JFloat (x : Q)
| JStr (s : string)
| JList (items : list json)
| JObj (fields : list (string * json)).

Inductive pytype : Type :=
| TNone | TBool | TInt | TFloat | TStr | TList | TDict.

Definition type_of (v : json) : pytype :=
  match v with
  | JNull => TNone
  | JBool _ => TBool
  | JInt _ => TInt
  | JFloat _ => TFloat
  | JStr _ => TStr
  | JList _ => TList
  | JObj _ => TDict
  end.

(** The exceptions the modelled operations raise; each is an instance of
    [Exception].  [SliceError] is what [v[:n]] raises on a value that cannot
    be sliced.  [UnsupportedMediaType] and [BadRequest] are the HTTP
    exceptions of werkzeug that [request.json] raises. *)
Inductive exn : Type :=
| NoAttribute (t : pytype) (attr : string)
| NoLen (t : pytype)
| SliceError (t : pytype)
| UnsupportedMediaType
| BadRequest.

(** ** Truthiness and [all] *)

Definition truthy (v : json) : bool :=
  match v with
  | JNull => false
  | JBool b => b
  | JInt n => negb (n =? 0)%Z
  | JFloat x => negb (Qeq_bool x 0)
  | JStr s => negb (s =? "")%string
  | JList items => match items with [] => false | _ :: _ => true end
  | JObj fields => match fields with [] => false | _ :: _ => true end
  end.

Definition all (vs : list json) : bool := forallb truthy vs.

(** ** Dictionaries *)

Fixpoint dict_get (k : string) (d : list (string * json)) : option json :=
  match d with
  | [] => None
  | (k', v) :: d' => if (k =? k')%string then Some v else dict_get k d'
  end.

(** The dictionary without the key [k] *)
Fixpoint dict_remove (k : string) (d : list (string * json))
  : list (string * json) :=
  match d with
  | [] => []
  | (k', v) :: d' =>
      if (k =? k')%string then dict_remove k d' else (k', v) :: dict_remove k d'
  end.

Definition dict_get_or (k : string) (d : list (string * json))
    (default : json) : json :=
  match dict_get k d with
  | Some v => v
  | None => default
  end.

(** ** Strings *)

Definition char_lower (c : ascii) : ascii :=
  let n := N_of_ascii c in
  if ((65 <=? n) && (n <=? 90)
      || (192 <=? n) && (n <=? 222) && negb (n =? 215))%N
  then ascii_of_N (n + 32)
  else c.

(** [str.lower()] *)
Fixpoint str_lower (s : string) : string :=
  match s with
  | EmptyString => EmptyString
  | String c s' => String (char_lower c) (str_lower s')
  end.

(** [sub in s] for two strings *)
Fixpoint contains (sub s : string) : bool :=
  prefix sub s
  || match s with
     | EmptyString => false
     | String _ s' => contains sub s'
     end.

(** [s[:n]] *)
Fixpoint str_take (n : nat) (s : string) : string :=
  match n, s with
  | O, _ => EmptyString
  | S _, EmptyString => EmptyString
  | S n', String c s' => String c (str_take n' s')
  end.

Definition is_space (c : ascii) : bool :=
  let n := N_of_ascii c in
  ((9 <=? n) && (n <=? 13) || (28 <=? n) && (n <=? 32)
   || (n =? 133) || (n =? 160))%N.

Fixpoint split_from (word s : string) : list string :=
  match s with
  | EmptyString => if (word =? "")%string then [] else [word]
  | String c s' =>
      if is_space c
      then if (word =? "")%string then split_from "" s'
           else word :: split_from "" s'
      else split_from (word ++ String c "")%string s'
  end.

(** [s.split()]: the maximal runs of characters that are not whitespace *)
Definition str_split (s : string) : list string := split_from "" s.

(** [sep.join(parts)] *)
Fixpoint join (sep : string) (parts : list string) : string :=
  match parts with
  | [] => ""
  | [p] => p
  | p :: rest => (p ++ sep ++ join sep rest)%string
  end.

Definition str_of_Z (n : Z) : string := NilZero.string_of_int (Z.to_int n).

(** ** f-strings

    An f-string is its pieces in order: literal text [T] and fields [V],
    each field a value printed with [str]. *)
Inductive piece : Type :=
| T (s : string)
| V (v : json).

Definition fstring : Type := list piece.

(** ** Formatting

    [repr] of a string and of a float are the interpreter's; the model takes
    them as given, and every result below holds whatever they print. *)
Class Formatting : Type := {
  str_repr : string -> string;
  float_repr : Q -> string
}.

Section Format.
Context {fmt : Formatting}.

Fixpoint py_repr (v : json) : string :=
  match v with
  | JNull => "None"
  | JBool true => "True"
  | JBool false => "False"
  | JInt n => str_of_Z n
  | JFloat x => float_repr x
  | JStr s => str_repr s
  | JList items => "[" ++ join ", " (map py_repr items) ++ "]"
  | JObj fields =>
      "{" ++ join ", "
               (map (fun kv => match kv with
                               | (k, x) => str_repr k ++ ": " ++ py_repr x
                               end) fields)
          ++ "}"
  end%string.

(** [str(v)], which is what an f-string field prints *)
Definition py_str (v : json) : string :=
  match v with
  | JStr s => s
  | _ => py_repr v
  end.

(** The text of an f-string *)
Definition format (f : fstring) : string :=
  String.concat ""
    (map (fun p => match p with T s => s | V v => py_str v end) f).

End Format.

(** ** The random generator

    [random.random()] draws a 53-bit integer from the generator and returns
    it over 2^53. *)
Class RandomSource : Type := {
  rng_state : Type;
  next_53_bits : rng_state -> Z * rng_state
}.

(** ** Logging *)

Inductive logger_name : Type := AppLogger | KtLogger | LlmLogger.
Inductive log_level : Type := INFO | WARNING | ERROR.

(** One record handed to a logger; the message is kept as the f-string it
    was written as, [format] gives its text.  For
    [logger.error(f"...{e}", exc_info=True)] the message is the text before
    [{e}] and [lr_exc] holds the exception. *)
Record log_record : Type := {
  lr_logger : logger_name;
  lr_level : log_level;
  lr_msg : fstring;
  lr_exc : option exn
}.

Inductive outcome (A : Type) : Type :=
| Ok (a : A)
| Raise (e : exn).
Arguments Ok {A} a.
Arguments Raise {A} e.

Section Effects.
Context {rs : RandomSource}.

Record world : Type := {
  log : list log_record;
  gen : rng_state
}.

Definition M (A : Type) : Type := world -> world * outcome A.

Definition ret {A} (a : A) : M A := fun w => (w, Ok a).

Definition bind {A B} (m : M A) (k : A -> M B) : M B :=
  fun w =>
    match m w with
    | (w', Ok a) => k a w'
    | (w', Raise e) => (w', Raise e)
    end.

Definition raise {A} (e : exn) : M A := fun w => (w, Raise e).

(** [try: body  except Exception as e: handler e] *)
Definition try_except {A} (body : M A) (handler : exn -> M A) : M A :=
  fun w =>
    match body w with
    | (w', Ok a) => (w', Ok a)
    | (w', Raise e) => handler e w'
    end.

Definition emit (r : log_record) : M unit :=
  fun w => ({| log := log w ++ [r]; gen := gen w |}, Ok tt).

Definition log_info (l : logger_name) (msg : fstring) : M unit :=
  emit {| lr_logger := l; lr_level := INFO; lr_msg := msg; lr_exc := None |}.

Definition log_warning (l : logger_name) (msg : fstring) : M unit :=
  emit {| lr_logger := l; lr_level := WARNING; lr_msg := msg; lr_exc := None |}.

Definition log_error (l : logger_name) (msg : fstring) : M unit :=
  emit {| lr_logger := l; lr_level := ERROR; lr_msg := msg; lr_exc := None |}.

Definition log_exception (l : logger_name) (msg : fstring) (e : exn)
  : M unit :=
  emit {| lr_logger := l; lr_level := ERROR; lr_msg := msg; lr_exc := Some e |}.

(** [random.random()] *)
Definition py_random : M Q :=
  fun w =>
    let (k, g) := next_53_bits (gen w) in
    ({| log := log w; gen := g |},
     Ok ((k mod 9007199254740992)%Z # 9007199254740992)).

(** [[m for _ in range(n)]] *)
Fixpoint repeatM {A} (n : nat) (m : M A) : M (list A) :=
  match n with
  | O => ret []
  | S n' => bind m (fun x => bind (repeatM n' m) (fun xs => ret (x :: xs)))
  end.

(** [d.get(k, default)] *)
Definition get (d : json) (k : string) (default : json) : M json :=
  match d with
  | JObj fields => ret (dict_get_or k fields default)
  | _ => raise (NoAttribute (type_of d) "get")
  end.

(** [len(v)] *)
Definition len (v : json) : M nat :=
  match v with
  | JStr s => ret (String.length s)
  | JList items => ret (List.length items)
  | JObj fields => ret (List.length fields)
  | _ => raise (NoLen (type_of v))
  end.

(** [v[:n]] *)
Definition slice_to (n : nat) (v : json) : M json :=
  match v with
  | JStr s => ret (JStr (str_take n s))
  | JList items => ret (JList (firstn n items))
  | _ => raise (SliceError (type_of v))
  end.

(** [v.lower()] *)
Definition lower (v : json) : M string :=
  match v with
  | JStr s => ret (str_lower s)
  | _ => raise (NoAttribute (type_of v) "lower")
  end.

(** [iter(v)], as a [for] statement takes it: the items of a list, the
    characters of a string, the keys of a dictionary.  A value of another
    type has no [__iter__] and the statement raises. *)
Fixpoint chars (s : string) : list json :=
  match s with
  | EmptyString => []
  | String c s' => JStr (String c "") :: chars s'
  end.

Definition iterate (v : json) : M (list json) :=
  match v with
  | JList items => ret items
  | JStr s => ret (chars s)
  | JObj fields => ret (map (fun kv => JStr (fst kv)) fields)
  | _ => raise (NoAttribute (type_of v) "__iter__")
  end.

(** [for item in items: body], the body updating the accumulator [acc] *)
Fixpoint for_each {S} (items : list json) (body : S -> json -> M S) (acc : S)
  : M S :=
  match items with
  | [] => ret acc
  | item :: rest =>
      bind (body acc item) (fun acc' => for_each rest body acc')
  end.

(** [a or b] on two tests, the second one run only when the first fails *)
Definition orM (a b : M bool) : M bool :=
  bind a (fun x => if x then ret true else b).

End Effects.

End Py.

Import Py.

Declare Scope py_scope.
Delimit Scope py_scope with py.
Notation "x <- m ;; k" := (bind m (fun x => k))
  (at level 61, m at next level, right associativity) : py_scope.
Notation "m ;; k" := (bind m (fun _ => k))
  (at level 61, right associativity) : py_scope.
Local Open Scope py_scope.

(* ================================================================== *)
(** * kt_service.py *)
(* ================================================================== *)

Module kt_service.
Section KtService.
Context {fmt : Formatting} {rs : RandomSource}.

(** The float written [0.65] in the source: the binary64 value nearest to
    65/100. *)
Definition float_0_65 : Q := 5854679515581645 # 9007199254740992.

Definition trace_student_knowledge
    (user_id course_id responses history content_views : json) : M json :=
  log_info KtLogger
    [T "Performing Knowledge Tracing for user "; V user_id;
     T " in course "; V course_id; T "."] ;;
  n_responses <- len responses ;;
  n_history <- len history ;;
  let kt_result :=
    JObj [ ("user_id", user_id);
           ("course_id", course_id);
           ("concepts_mastered", JList [JStr "concept_A"; JStr "concept_B"]);
           ("concepts_struggling", JList [JStr "concept_C"]);
           ("overall_proficiency_estimate", JFloat float_0_65);
           ("last_interaction_summary",
            JStr (format [T "Processed "; V (JInt (Z.of_nat n_responses));
                          T " new responses and ";
                          V (JInt (Z.of_nat n_history));
                          T " history items."])) ] in
  log_info KtLogger [T "KT Result for user "; V user_id; T ": "; V kt_result] ;;
  ret kt_result.

End KtService.
End kt_service.

(* ================================================================== *)
(** * llm_service.py *)
(* ================================================================== *)

Module llm_service.
Section LlmService.
Context {fmt : Formatting} {rs : RandomSource}.

(** [v == s] for a string literal [s] *)
Definition eq_str (v : json) (s : string) : bool :=
  match v with
  | JStr s' => (s' =? s)%string
  | _ => false
  end.

(** [sub in text.lower()] *)
Definition in_lower (sub : string) (text : json) : M bool :=
  l <- lower text ;; ret (contains sub l).

Definition generate_solution_steps_for_question
    (question_text question_type answers : json) : M (list string) :=
  head50 <- slice_to 50 question_text ;;
  log_info LlmLogger
    [T "Generating solution steps for question: "; V head50; T "..."] ;;
  head30 <- slice_to 30 question_text ;;
  let steps :=
    [ format [T "Step 1: Understand the question: '"; V head30; T "...'"];
      "Step 2: Identify key information and formulas.";
      "Step 3: Apply the method/formula.";
      "Step 4: Calculate the result and verify." ] in
  if eq_str question_type "multichoice"
  then ret (steps ++ ["Step 5: Select the correct option from the choices."])
  else ret steps.

Definition levels : list (string * Z) :=
  [ ("Remembering", 1); ("Understanding", 2); ("Applying", 3);
    ("Analyzing", 4); ("Evaluating", 5); ("Creating", 6) ]%Z.

(** [levels[name]], for a key of [levels] *)
Definition level (name : string) : Z :=
  match find (fun kv => (fst kv =? name)%string) levels with
  | Some kv => snd kv
  | None => 0%Z
  end.

Definition classify_bloom_level_for_question
    (question_text answers : json) : M Z :=
  head50 <- slice_to 50 question_text ;;
  log_info LlmLogger
    [T "Classifying Bloom's level for question: "; V head50; T "..."] ;;
  remembering <-
    orM (in_lower "define" question_text) (in_lower "list" question_text) ;;
  if remembering then ret (level "Remembering") else
  understanding <-
    orM (in_lower "explain" question_text)
        (in_lower "summarize" question_text) ;;
  if understanding then ret (level "Understanding") else
  applying <-
    orM (orM (in_lower "calculate" question_text)
             (in_lower "solve" question_text))
        (in_lower "apply" question_text) ;;
  if applying then ret (level "Applying") else
  ret (level "Applying").

Definition generate_embedding_for_text (text_content : json) : M (list Q) :=
  head50 <- slice_to 50 text_content ;;
  log_info LlmLogger [T "Generating embedding for text: "; V head50; T "..."] ;;
  repeatM 128 py_random.

Definition tag (name type : string) : json :=
  JObj [("name", JStr name); ("type", JStr type)].

Definition extract_taxonomy_tags_for_text (text_content : json)
  : M (list json) :=
  head50 <- slice_to 50 text_content ;;
  log_info LlmLogger
    [T "Extracting taxonomy tags for text: "; V head50; T "..."] ;;
  let tags := [] in
  algebra <- in_lower "algebra" text_content ;;
  let tags := if algebra then tags ++ [tag "Algebra" "topic"] else tags in
  solving <- in_lower "solving equations" text_content ;;
  let tags :=
    if solving then tags ++ [tag "Equation Solving" "skill"] else tags in
  let tags :=
    match tags with
    | [] => tags ++ [tag "General Knowledge" "topic"]
    | _ :: _ => tags
    end in
  ret tags.

Definition newline : string := String (ascii_of_nat 10) "".

Definition generate_feedback_with_graphrag_llm
    (attempt_data student_kt_state course_context : json) : M string :=
  attemptid <- get attempt_data "attemptid" JNull ;;
  log_info LlmLogger
    [T "Generating feedback with GraphRAG/LLM for attempt ID: "; V attemptid] ;;
  log_info LlmLogger [T "Student KT State: "; V student_kt_state] ;;
  context_course <- get course_context "course_id" JNull ;;
  log_info LlmLogger [T "Course Context (simplified): "; V context_course] ;;
  (* the prompt is built and never sent *)
  kt_user <- get student_kt_state "user_id" JNull ;;
  prompt_attempt <- get attempt_data "attemptid" JNull ;;
  let prompt :=
    format [T "Student (User ID: "; V kt_user;
            T ") attempted quiz (Attempt ID: "; V prompt_attempt; T ").";
            T newline] in
  prompt_responses <- get attempt_data "responses" JNull ;;
  let prompt :=
    (prompt ++ format [T "Responses: "; V prompt_responses; T newline])%string in
  prompt_struggling <- get student_kt_state "concepts_struggling" JNull ;;
  let prompt :=
    (prompt
       ++ format [T "Knowledge Tracing indicates they are struggling with: ";
                  V prompt_struggling; T "."; T newline])%string in
  let prompt :=
    (prompt ++ "Based on this and relevant course materials (retrieved via GraphRAG), provide personalized feedback and suggest next steps.")%string in
  (* the dummy feedback *)
  attempt_id <- get attempt_data "attemptid" JNull ;;
  quizid <- get attempt_data "quizid" JNull ;;
  quiz_name <-
    get attempt_data "quizname"
      (JStr (format [T "Quiz (ID: "; V quizid; T ")"])) ;;
  student_firstname <- get attempt_data "studentfirstname" (JStr "Student") ;;
  let new_feedback_start :=
    format [T "Great effort, "; V student_firstname; T ", on the quiz '";
            V quiz_name; T "' (attempt "; V attempt_id; T ")!"] in
  concepts_mastered <- get student_kt_state "concepts_mastered" (JList []) ;;
  concepts_struggling <-
    get student_kt_state "concepts_struggling" (JList []) ;;
  let feedback_parts := [new_feedback_start] in
  let feedback_parts :=
    if truthy concepts_mastered
    then feedback_parts
           ++ [format [T "It seems you're doing well with ";
                       V concepts_mastered; T "."]]
    else feedback_parts in
  let feedback_parts :=
    if truthy concepts_struggling
    then feedback_parts
           ++ [format [T "You might need to review ";
                       V concepts_struggling; T "."]]
    else feedback_parts in
  let feedback_parts :=
    feedback_parts
      ++ ["Consider revisiting relevant materials or practice problems. Keep up the good work!"] in
  let feedback_text := join " " feedback_parts in
  log_info AppLogger [T "Generated feedback: "; V (JStr feedback_text)] ;;
  ret feedback_text.

Definition summarize_content (text_content : json) : M string :=
  head50 <- slice_to 50 text_content ;;
  log_info LlmLogger [T "Summarizing content: "; V head50; T "..."] ;;
  head100 <- slice_to 100 text_content ;;
  ret (format [T "This is a summary of: "; V head100; T "..."]).

Definition update_graph_with_new_data
    (course_id analyzed_content_metadata analyzed_question_metadata : json)
  : M string :=
  log_info LlmLogger
    [T "Initiating knowledge graph update for course ID "; V course_id;
     T " using GraphRAG."] ;;
  let message :=
    format [T "GraphRAG update process simulated for course ID ";
            V course_id; T ". "] in
  bookchapters <- get analyzed_content_metadata "bookchapters" (JList []) ;;
  n_bookchapters <- len bookchapters ;;
  let message :=
    (message
       ++ format [T "Received "; V (JInt (Z.of_nat n_bookchapters));
                  T " book chapters, "])%string in
  h5pactivities <- get analyzed_content_metadata "h5pactivities" (JList []) ;;
  n_h5pactivities <- len h5pactivities ;;
  let message :=
    (message
       ++ format [V (JInt (Z.of_nat n_h5pactivities));
                  T " H5P activities, "])%string in
  log_info LlmLogger [V (JStr message)] ;;
  ret message.

End LlmService.
End llm_service.

(* ================================================================== *)
(** * app.py *)
(* ================================================================== *)

Module app.
Import kt_service llm_service.

(** What [request.json] finds in a request: the decoded JSON body, a content
    type that is not JSON, or a body that does not parse as JSON. *)
Inductive payload : Type :=
| Decoded (data : json)
| NotJsonType
| MalformedJson.

(** What a route sees of a request: the [Authorization] header, if any, and
    what [request.json] finds. *)
Record request : Type := {
  authorization : option string;
  json_body : payload
}.

(** A response: the JSON body and the HTTP status code. *)
Record response : Type := {
  body : json;
  status_code : Z
}.

(** [jsonify(body), code]; a route that returns [jsonify(body)] alone
    answers 200. *)
Definition jsonify (b : json) (code : Z) : response :=
  {| body := b; status_code := code |}.

Definition error_body (message : string) : json :=
  JObj [("status", JStr "error"); ("message", JStr message)].



Section App.
Context {fmt : Formatting} {rs : RandomSource}.

(** [os.getenv("LMS_PLUGIN_API_KEY")] *)
Variable LMS_API_KEY : string.

(** [request.json]: the decoded body, or the HTTP exception for a content
    type that is not JSON (415) or a body that does not parse (400) *)
Definition request_json (req : request) : M json :=
  match json_body req with
  | Decoded data => ret data
  | NotJsonType => raise UnsupportedMediaType
  | MalformedJson => raise BadRequest
  end.


Definition require_api_key (f : request -> M response) (req : request)
  : M response :=
  match authorization req with
  | None =>
      log_warning AppLogger [T "Missing Authorization Header"] ;;
      ret (jsonify (error_body "Missing Authorization Header") 401)
  | Some auth_header =>
      if (auth_header =? "")%string then
        log_warning AppLogger [T "Missing Authorization Header"] ;;
        ret (jsonify (error_body "Missing Authorization Header") 401)
      else if (LMS_API_KEY =? "")%string then
        log_error AppLogger
          [T "API Key is not configured on the server (LMS_PLUGIN_API_KEY missing)."] ;;
        ret (jsonify (error_body "API Key not configured on server") 500)
      else
        match str_split auth_header with
        | [auth_type; api_key_received] =>
            if negb (str_lower auth_type =? "bearer")%string
               || negb (api_key_received =? LMS_API_KEY)%string
            then
              log_warning AppLogger
                [T "Invalid API Key. Received type: "; V (JStr auth_type)] ;;
              ret (jsonify (error_body "Invalid API Key") 401)
            else f req
        | _ =>
            log_warning AppLogger
              [T "Invalid Authorization Header format. Header: ";
               V (JStr auth_header)] ;;
            ret (jsonify (error_body "Invalid Authorization Header format") 401)
        end
  end.

(** The body of the route [/api/generate_feedback]. *)
Definition generate_feedback (req : request) : M response :=
  data <- request_json req ;;
  log_info AppLogger [T "Received data for /api/generate_feedback: "; V data] ;;
  try_except
    (attempt_id <- get data "attemptid" JNull ;;
     user_id <- get data "userid" JNull ;;
     course_id <- get data "courseid" JNull ;;
     responses <- get data "responses" (JList []) ;;
     history <- get data "history" (JList []) ;;
     content_views <- get data "contentviews" (JList []) ;;
     if negb (all [attempt_id; user_id; course_id]) then
       ret (jsonify
              (error_body "Missing required fields: attemptid, userid, or courseid")
              400)
     else
       student_kt_state <-
         trace_student_knowledge user_id course_id responses history
           content_views ;;
       let course_context_for_llm := JObj [("course_id", course_id)] in
       feedback_text <-
         generate_feedback_with_graphrag_llm data student_kt_state
           course_context_for_llm ;;
       ret (jsonify
              (JObj [("status", JStr "success");
                     ("feedback", JStr feedback_text)])
              200))
    (fun e =>
       log_exception AppLogger [T "Error in /api/generate_feedback: "] e ;;
       ret (jsonify
              (error_body "An internal error occurred while generating feedback.")
              500)).

(** The body of the route [/api/analyze_question]. *)
Definition analyze_question (req : request) : M response :=
  data <- request_json req ;;
  log_info AppLogger [T "Received data for /api/analyze_question: "; V data] ;;
  try_except
    (question_data <- get data "question" (JObj []) ;;
     question_id <- get question_data "id" JNull ;;
     question_text <- get question_data "text" JNull ;;
     question_type <- get question_data "type" JNull ;;
     answers <- get question_data "answers" JNull ;;
     if negb (all [question_id; question_text; question_type]) then
       ret (jsonify
              (error_body "Missing required question fields: id, text, or type")
              400)
     else
       solution_steps <-
         generate_solution_steps_for_question question_text question_type
           answers ;;
       cognitive_level <-
         classify_bloom_level_for_question question_text answers ;;
       embedding <- generate_embedding_for_text question_text ;;
       taxonomy_tags <- extract_taxonomy_tags_for_text question_text ;;
       ret (jsonify
              (JObj [("status", JStr "success");
                     ("question_id", question_id);
                     ("embedding", JList (map JFloat embedding));
                     ("cognitive_level", JInt cognitive_level);
                     ("solution_steps", JList (map JStr solution_steps));
                     ("taxonomy", JList taxonomy_tags)])
              200))
    (fun e =>
       log_exception AppLogger [T "Error in /api/analyze_question: "] e ;;
       ret (jsonify
              (error_body "An internal error occurred while analyzing the question.")
              500)).

(** The routes as Flask serves them: the handler behind the decorator. *)
Definition route_generate_feedback : request -> M response :=
  require_api_key generate_feedback.

Definition route_analyze_question : request -> M response :=
  require_api_key analyze_question.

(** A request the decorator lets through. *)
Definition authenticated (req : request) : bool :=
  match authorization req with
  | None => false
  | Some auth_header =>
      negb (auth_header =? "")%string
      && negb (LMS_API_KEY =? "")%string
      && match str_split auth_header with
         | [auth_type; api_key_received] =>
             (str_lower auth_type =? "bearer")%string
             && (api_key_received =? LMS_API_KEY)%string
         | _ => false
         end
  end.

(** One chapter of a book, in the loop of [/api/analyze_course_content] *)
Definition analyze_chapter (analyzed_book_chapters : list json)
    (chapter : json) : M (list json) :=
  chapter_id <- get chapter "chapterid" JNull ;;
  content <- get chapter "content" JNull ;;
  if negb (all [chapter_id; content]) then
    log_warning AppLogger
      [T "Skipping chapter due to missing ID or content: "; V chapter] ;;
    ret analyzed_book_chapters
  else
    summary <- summarize_content content ;;
    tags <- extract_taxonomy_tags_for_text content ;;
    embedding <- generate_embedding_for_text content ;;
    ret (analyzed_book_chapters
           ++ [JObj [("chapterid", chapter_id);
                     ("summary", JStr summary);
                     ("taxonomy", JList tags);
                     ("embedding", JList (map JFloat embedding))]]).

(** One book: the loop over its chapters *)
Definition analyze_book (analyzed_book_chapters : list json) (book : json)
  : M (list json) :=
  chapters_data <- get book "chapters" (JList []) ;;
  chapters <- iterate chapters_data ;;
  for_each chapters analyze_chapter analyzed_book_chapters.

(** One H5P transcript *)
Definition analyze_h5p (analyzed_h5p_activities : list json) (h5p : json)
  : M (list json) :=
  h5p_id <- get h5p "h5pid" JNull ;;
  transcript <- get h5p "transcript" JNull ;;
  if negb (all [h5p_id; transcript]) then
    log_warning AppLogger
      [T "Skipping H5P due to missing ID or transcript: "; V h5p] ;;
    ret analyzed_h5p_activities
  else
    summary <- summarize_content transcript ;;
    tags <- extract_taxonomy_tags_for_text transcript ;;
    embedding <- generate_embedding_for_text transcript ;;
    ret (analyzed_h5p_activities
           ++ [JObj [("h5pid", h5p_id);
                     ("summary", JStr summary);
                     ("taxonomy", JList tags);
                     ("embedding", JList (map JFloat embedding))]]).

(** The body of the route [/api/analyze_course_content]. *)
Definition analyze_course_content (req : request) : M response :=
  data <- request_json req ;;
  log_info AppLogger
    [T "Received data for /api/analyze_course_content: "; V data] ;;
  try_except
    (books_data <- get data "books" (JList []) ;;
     h5p_transcripts_data <- get data "h5p_transcripts" (JList []) ;;
     books <- iterate books_data ;;
     analyzed_book_chapters <- for_each books analyze_book [] ;;
     h5ps <- iterate h5p_transcripts_data ;;
     analyzed_h5p_activities <- for_each h5ps analyze_h5p [] ;;
     ret (jsonify
            (JObj [("status", JStr "success");
                   ("bookchapters", JList analyzed_book_chapters);
                   ("h5pactivities", JList analyzed_h5p_activities)])
            200))
    (fun e =>
       log_exception AppLogger [T "Error in /api/analyze_course_content: "] e ;;
       ret (jsonify
              (error_body "An internal error occurred while analyzing course content.")
              500)).

(** The body of the route [/api/update_knowledge_graph]. *)
Definition update_knowledge_graph (req : request) : M response :=
  data <- request_json req ;;
  log_info AppLogger
    [T "Received data for /api/update_knowledge_graph: "; V data] ;;
  try_except
    (course_id <- get data "courseid" JNull ;;
     bookchapters <- get data "bookchapters" (JList []) ;;
     h5pactivities <- get data "h5pactivities" (JList []) ;;
     let mock_analyzed_content :=
       JObj [("bookchapters", bookchapters);
             ("h5pactivities", h5pactivities)] in
     mock_analyzed_questions <- get data "questions_metadata" (JList []) ;;
     message <-
       update_graph_with_new_data course_id mock_analyzed_content
         mock_analyzed_questions ;;
     log_info AppLogger [V (JStr message)] ;;
     ret (jsonify
            (JObj [("status", JStr "success"); ("message", JStr message)])
            200))
    (fun e =>
       log_exception AppLogger [T "Error in /api/update_knowledge_graph: "] e ;;
       ret (jsonify
              (error_body "An internal error occurred while updating the knowledge graph.")
              500)).

Definition route_analyze_course_content : request -> M response :=
  require_api_key analyze_course_content.

Definition route_update_knowledge_graph : request -> M response :=
  require_api_key update_knowledge_graph.

End App.
End app.

Import kt_service llm_service app.

(* ================================================================== *)
(** * Vocabulary of the statements *)
(* ================================================================== *)

(** [v[k]] when [v] is an object that has the key *)
Definition field (k : string) (v : json) : option json :=
  match v with
  | JObj fields => dict_get k fields
  | _ => None
  end.

(** The size [len] returns, for the values that have one *)
Definition size_of (v : json) : option nat :=
  match v with
  | JStr s => Some (String.length s)
  | JList items => Some (List.length items)
  | JObj fields => Some (List.length fields)
  | _ => None
  end.

(** A response carries a knowledge state when its body has an object under
    [knowledge_state] with the two concept lists and a float estimate. *)
Definition carries_knowledge_state (b : json) : Prop :=
  exists ks mastered struggling x,
    field "knowledge_state" b = Some ks
    /\ field "concepts_mastered" ks = Some (JList mastered)
    /\ field "concepts_struggling" ks = Some (JList struggling)
    /\ field "overall_proficiency_estimate" ks = Some (JFloat x).

(** The name [c] occurs in [v]: as a string, or as a key, at any depth.  The
    code has no concept registry; this is the widest reading of a record
    that bears on a concept. *)
Fixpoint mentions (c : string) (v : json) : bool :=
  match v with
  | JStr s => (s =? c)%string
  | JList items => existsb (mentions c) items
  | JObj fields =>
      existsb (fun kv => match kv with
                         | (k, x) => (k =? c)%string || mentions c x
                         end) fields
  | _ => false
  end.

Definition has_evidence (c : string) (responses history content_views : json)
  : bool :=
  mentions c responses || mentions c history || mentions c content_views.

(** A float of the unit interval, closed or half-open *)
Definition in_unit_closed (x : Q) : Prop := (0 <= x)%Q /\ (x <= 1)%Q.
Definition in_unit_half_open (x : Q) : Prop := (0 <= x)%Q /\ (x < 1)%Q.

(** The record a route writes on entry *)
Definition received (route : string) (data : json) : log_record :=
  {| lr_logger := AppLogger; lr_level := INFO;
     lr_msg := [T ("Received data for " ++ route ++ ": ")%string; V data];
     lr_exc := None |}.

(** The answer of [/api/generate_feedback] to a request without its three
    identifiers *)
Definition missing_fields_response : response :=
  jsonify (error_body "Missing required fields: attemptid, userid, or courseid")
    400.

(** The same request without the key [k] *)
Definition without_field (k : string) (req : request) : request :=
  {| authorization := authorization req;
     json_body := match json_body req with
                  | Decoded (JObj fields) =>
                      Decoded (JObj (dict_remove k fields))
                  | other => other
                  end |}.

(** The scenario of the specification: student 42, course 7, three correct
    responses to questions tagged [linear_equations], in timestamp order. *)
Definition scenario_response (question_id timestamp : Z) : json :=
  JObj [("question_id", JInt question_id);
        ("correct", JBool true);
        ("timestamp", JInt timestamp);
        ("concept", JStr "linear_equations")].

Definition scenario_responses : json :=
  JList [scenario_response 1 1; scenario_response 2 2; scenario_response 3 3].

(** What the scenario promises of the state after the first pass, [ks], and
    after the second, [ks']. *)
Definition scenario_promise (ks ks' : json) : Prop :=
  (exists mastered,
      field "concepts_mastered" ks = Some (JList mastered)
      /\ In (JStr "linear_equations") mastered)
  /\ (exists x,
         field "overall_proficiency_estimate" ks = Some (JFloat x)
         /\ (3 # 4 <= x)%Q)
  /\ ks' = ks.

(** The three identifiers [/api/generate_feedback] requires *)
Definition required_identifiers : list string :=
  ["attemptid"; "userid"; "courseid"].

Section Vocabulary.
Context {fmt : Formatting} {rs : RandomSource}.

(** The dictionary [trace_student_knowledge] builds, given the two sizes *)
Definition placeholder_state (user_id course_id : json) (n_responses n_history : nat)
  : json :=
  JObj [ ("user_id", user_id);
         ("course_id", course_id);
         ("concepts_mastered", JList [JStr "concept_A"; JStr "concept_B"]);
         ("concepts_struggling", JList [JStr "concept_C"]);
         ("overall_proficiency_estimate", JFloat float_0_65);
         ("last_interaction_summary",
          JStr (format [T "Processed "; V (JInt (Z.of_nat n_responses));
                        T " new responses and ";
                        V (JInt (Z.of_nat n_history));
                        T " history items."])) ].

(** A computation whose result does not depend on the world it starts in *)
Definition world_blind {A} (m : M A) : Prop :=
  forall w1 w2, snd (m w1) = snd (m w2).

(** The next [n] floats of a generator, and the generator after them *)
Fixpoint draws (n : nat) (g : rng_state) : list Q * rng_state :=
  match n with
  | O => ([], g)
  | S n' =>
      let (k, g1) := next_53_bits g in
      let (xs, g2) := draws n' g1 in
      (((k mod 9007199254740992)%Z # 9007199254740992) :: xs, g2)
  end.

End Vocabulary.

(** ** Vocabulary of the further properties *)

(** The string holds a whitespace character. *)
Fixpoint has_space (s : string) : bool :=
  match s with
  | EmptyString => false
  | String c s' => is_space c || has_space s'
  end.

(** An answer is well formed when its [status] agrees with its code: 200
    with [success], or 400, 401 or 500 with [error] and a message. *)
Definition well_formed_answer (r : response) : Prop :=
  (status_code r = 200%Z /\ field "status" (body r) = Some (JStr "success"))
  \/ ((status_code r = 400%Z \/ status_code r = 401%Z
       \/ status_code r = 500%Z)
      /\ field "status" (body r) = Some (JStr "error")
      /\ exists message, field "message" (body r) = Some (JStr message)).

Section FurtherVocabulary.
Context {fmt : Formatting} {rs : RandomSource}.

(** The feedback text the generator builds from the request's fields and
    the placeholder knowledge state *)
Definition placeholder_feedback (fields : list (string * json)) : string :=
  join " "
    [ format [T "Great effort, ";
              V (dict_get_or "studentfirstname" fields (JStr "Student"));
              T ", on the quiz '";
              V (dict_get_or "quizname" fields
                   (JStr (format [T "Quiz (ID: ";
                                  V (dict_get_or "quizid" fields JNull);
                                  T ")"])));
              T "' (attempt "; V (dict_get_or "attemptid" fields JNull);
              T ")!"];
      format [T "It seems you're doing well with ";
              V (JList [JStr "concept_A"; JStr "concept_B"]); T "."];
      format [T "You might need to review ";
              V (JList [JStr "concept_C"]); T "."];
      "Consider revisiting relevant materials or practice problems. Keep up the good work!" ].


End FurtherVocabulary.

(** An [INFO] record *)
Definition info (l : logger_name) (msg : fstring) : log_record :=
  {| lr_logger := l; lr_level := INFO; lr_msg := msg; lr_exc := None |}.

(** The Bloom level of a text, by keyword: 1 (remembering), 2
    (understanding), otherwise 3 (applying) *)
Definition bloom_rule (text : string) : Z :=
  let l := str_lower text in
  if contains "define" l || contains "list" l then 1%Z
  else if contains "explain" l || contains "summarize" l then 2%Z
  else 3%Z.

(** The tags of a text, by keyword *)
Definition taxonomy_rule (text : string) : list json :=
  let l := str_lower text in
  match contains "algebra" l, contains "solving equations" l with
  | true, true => [tag "Algebra" "topic"; tag "Equation Solving" "skill"]
  | true, false => [tag "Algebra" "topic"]
  | false, true => [tag "Equation Solving" "skill"]
  | false, false => [tag "General Knowledge" "topic"]
  end.



(** The length of a summary: the 22 characters before the text, at most
    100 of the text, and the three dots *)
Definition summary_length (text : string) : nat :=
  22 + Nat.min 100 (String.length text) + 3.

Section QuestionVocabulary.
Context {fmt : Formatting}.

(** The summary of a text *)
Definition summary_of (text : string) : string :=
  ("This is a summary of: " ++ str_take 100 text ++ "...")%string.

(** The solution steps of a text: four, and a fifth for a multiple-choice
    question *)
Definition solution_steps_of (text : string) (question_type : json)
  : list string :=
  [ format [T "Step 1: Understand the question: '";
            V (JStr (str_take 30 text)); T "...'"];
    "Step 2: Identify key information and formulas.";
    "Step 3: Apply the method/formula.";
    "Step 4: Calculate the result and verify." ]
    ++ (if eq_str question_type "multichoice"
        then ["Step 5: Select the correct option from the choices."]
        else []).

End QuestionVocabulary.

Section CourseContentVocabulary.
Context {fmt : Formatting} {rs : RandomSource}.

(** The common shape of the two loop bodies of [/api/analyze_course_content]:
    an item is read by its identifier key and its text key. *)
Definition analyze_item (idkey textkey warning : string) (acc : list json)
    (item : json) : M (list json) :=
  item_id <- get item idkey JNull ;;
  text <- get item textkey JNull ;;
  if negb (all [item_id; text]) then
    log_warning AppLogger [T warning; V item] ;;
    ret acc
  else
    summary <- summarize_content text ;;
    tags <- extract_taxonomy_tags_for_text text ;;
    embedding <- generate_embedding_for_text text ;;
    ret (acc
           ++ [JObj [(idkey, item_id);
                     ("summary", JStr summary);
                     ("taxonomy", JList tags);
                     ("embedding", JList (map JFloat embedding))]]).

(** An item is kept when it is a dictionary with a truthy identifier and a
    truthy text; the others are skipped. *)
Definition kept (idkey textkey : string) (item : json) : bool :=
  match item with
  | JObj c =>
      truthy (dict_get_or idkey c JNull) && truthy (dict_get_or textkey c JNull)
  | _ => false
  end.

(** An item can be analysed when it is a dictionary whose text, if the item
    is kept, is a string. *)
Definition analysable (idkey textkey : string) (item : json) : bool :=
  match item with
  | JObj c =>
      negb (kept idkey textkey item)
      || match dict_get_or textkey c JNull with
         | JStr _ => true
         | _ => false
         end
  | _ => false
  end.

(** The entry made of a kept item: its identifier, the summary and the tags
    of its text, and 128 floats of [0,1). *)
Definition entry_of (idkey textkey : string) (item entry : json) : Prop :=
  exists c s emb,
    item = JObj c
    /\ dict_get_or textkey c JNull = JStr s
    /\ entry = JObj [(idkey, dict_get_or idkey c JNull);
                     ("summary", JStr (summary_of s));
                     ("taxonomy", JList (taxonomy_rule s));
                     ("embedding", JList (map JFloat emb))]
    /\ List.length emb = 128%nat
    /\ Forall in_unit_half_open emb.

(** The chapters of a book, when it is a dictionary with a list of them *)
Definition chapters_of (book : json) : list json :=
  match book with
  | JObj b =>
      match dict_get_or "chapters" b (JList []) with
      | JList chapters => chapters
      | _ => []
      end
  | _ => []
  end.

Definition book_analysable (book : json) : bool :=
  match book with
  | JObj b =>
      match dict_get_or "chapters" b (JList []) with
      | JList chapters => forallb (analysable "chapterid" "content") chapters
      | _ => false
      end
  | _ => false
  end.

(** The message of the graph update *)
Definition graph_update_message (course_id : json) (n_chapters n_h5p : nat)
  : string :=
  (format [T "GraphRAG update process simulated for course ID ";
           V course_id; T ". "]
     ++ format [T "Received "; V (JInt (Z.of_nat n_chapters));
                T " book chapters, "]
     ++ format [V (JInt (Z.of_nat n_h5p)); T " H5P activities, "])%string.

End CourseContentVocabulary.

(* ================================================================== *)
(** * Instances used to run the model on concrete requests *)
(* ================================================================== *)

Module Examples.

(** [repr] of a string without quote, backslash or control character is the
    string between single quotes.  Python prints a float as the shortest
    decimal that reads back as it; the instance prints its fraction, and no
    request below makes the code format a float into a response. *)
#[local] Instance plain_formatting : Formatting := {|
  str_repr := fun s => ("'" ++ s ++ "'")%string;
  float_repr := fun x =>
    (str_of_Z (Qnum x) ++ "/" ++ str_of_Z (Z.pos (Qden x)))%string
|}.

(** A generator that counts its draws and scatters the count over the
    53-bit integers. *)
Definition counter_next (g : nat) : Z * nat :=
  ((Z.of_nat g * 2654435761 + 1442695040888963407)%Z, S g).

#[local] Instance counter : RandomSource := {|
  rng_state := nat;
  next_53_bits := counter_next
|}.

Definition world0 : world := {| log := []; gen := 0%nat |}.

Definition bearer (key : string) (data : json) : request :=
  {| authorization := Some ("Bearer " ++ key)%string;
     json_body := Decoded data |}.

(** A well-formed request for feedback on the scenario's responses *)
Definition feedback_request : request :=
  bearer "secret"
    (JObj [("attemptid", JInt 5); ("userid", JInt 42); ("courseid", JInt 7);
           ("responses", scenario_responses)]).

(** A request for feedback with its three sequences empty *)
Definition empty_feedback_request : request :=
  bearer "secret"
    (JObj [("attemptid", JInt 5); ("userid", JInt 42); ("courseid", JInt 7);
           ("responses", JList []); ("history", JList []);
           ("contentviews", JList [])]).


(** A request for feedback whose [attemptid] is the integer 0 *)
Definition zero_attempt_request : request :=
  bearer "secret"
    (JObj [("attemptid", JInt 0); ("userid", JInt 42); ("courseid", JInt 7)]).

(** A request to analyse a question *)
Definition question_request : request :=
  bearer "secret"
    (JObj [("question",
            JObj [("id", JInt 11);
                  ("text", JStr "Solve 2x + 3 = 7 by Solving Equations");
                  ("type", JStr "multichoice")])]).


(** A request without the [Authorization] header *)
Definition anonymous_request : request :=
  {| authorization := None; json_body := Decoded (JObj []) |}.

(** Two lists of responses of the same length, all correct and all wrong *)
Definition correct_responses : list json :=
  [JObj [("question_id", JInt 1); ("correct", JBool true)];
   JObj [("question_id", JInt 2); ("correct", JBool true)]].

Definition wrong_responses : list json :=
  [JObj [("question_id", JInt 1); ("correct", JBool false)];
   JObj [("question_id", JInt 2); ("correct", JBool false)]].

(** A request for feedback whose [responses] is null *)
Definition null_responses_fields : list (string * json) :=
  [("attemptid", JInt 5); ("userid", JInt 42); ("courseid", JInt 7);
   ("responses", JNull)].

(** The fields of [feedback_request], and the same attempt with another
    student, course and responses *)
Definition feedback_fields : list (string * json) :=
  [("attemptid", JInt 5); ("userid", JInt 42); ("courseid", JInt 7);
   ("responses", scenario_responses)].

Definition other_feedback_fields : list (string * json) :=
  [("attemptid", JInt 5); ("userid", JInt 43); ("courseid", JInt 8);
   ("responses", JList wrong_responses); ("contentviews", JNull)].


Definition numeric_question : list (string * json) :=
  [("id", JInt 11); ("text", JInt 5); ("type", JStr "essay")].

Definition complete_question : list (string * json) :=
  [("id", JInt 11); ("text", JStr "Solve 2x + 3 = 7 by Solving Equations");
   ("type", JStr "multichoice")].

(** Course content: a book with a complete chapter and one without content,
    and one transcript *)
Definition example_books : list json :=
  [JObj [("chapters",
          JList [JObj [("chapterid", JInt 1);
                       ("content", JStr "Algebra basics")];
                 JObj [("chapterid", JInt 2)]])]].

Definition example_h5ps : list json :=
  [JObj [("h5pid", JInt 9);
         ("transcript", JStr "Solving equations step by step")]].

Definition course_fields : list (string * json) :=
  [("books", JList example_books); ("h5p_transcripts", JList example_h5ps)].

(** Transcripts of which the second has a number for text *)
Definition broken_h5ps : list json :=
  [JObj [("h5pid", JInt 9); ("transcript", JStr "Solving equations")];
   JObj [("h5pid", JInt 10); ("transcript", JInt 3)]].

Definition broken_course_fields : list (string * json) :=
  [("books", JList example_books); ("h5p_transcripts", JList broken_h5ps)].

End Examples.

(* ================================================================== *)
(** * Properties of the builtins and of the service functions *)
(* ================================================================== *)

Section Decoding.
Context {rs : RandomSource}.

Lemma bind_ret {A B} (a : A) (k : A -> M B) : bind (ret a) k = k a.
Proof. reflexivity. Qed.

End Decoding.

(** Reading [request.json] in a request whose body is decoded. *)
Ltac decode :=
  unfold request_json; cbn [json_body]; rewrite bind_ret; cbv beta.

Section ServiceLemmas.
Context {fmt : Formatting} {rs : RandomSource}.

Lemma len_size (v : json) (w : world) :
  len v w
  = (w, match size_of v with
        | Some n => Ok n
        | None => Raise (NoLen (type_of v))
        end).
Proof. destruct v; reflexivity. Qed.

Lemma trace_student_knowledge_run
    (user_id course_id responses history content_views : json) (w : world) :
  trace_student_knowledge user_id course_id responses history content_views w
  = let started :=
      {| lr_logger := KtLogger; lr_level := INFO;
         lr_msg := [T "Performing Knowledge Tracing for user "; V user_id;
                    T " in course "; V course_id; T "."];
         lr_exc := None |} in
    match size_of responses, size_of history with
    | Some n, Some m =>
        let ks := placeholder_state user_id course_id n m in
        ({| log := (log w ++ [started])
                     ++ [{| lr_logger := KtLogger; lr_level := INFO;
                            lr_msg := [T "KT Result for user "; V user_id;
                                       T ": "; V ks];
                            lr_exc := None |}];
            gen := gen w |},
         Ok ks)
    | Some _, None =>
        ({| log := log w ++ [started]; gen := gen w |},
         Raise (NoLen (type_of history)))
    | None, _ =>
        ({| log := log w ++ [started]; gen := gen w |},
         Raise (NoLen (type_of responses)))
    end.
Proof.
  unfold trace_student_knowledge, bind, log_info, emit.
  cbv zeta. rewrite len_size.
  destruct (size_of responses) as [n|]; [|reflexivity].
  rewrite len_size.
  destruct (size_of history) as [m|]; reflexivity.
Qed.

(** The feedback generator on dictionaries: it returns, and writes four
    records, the second of which prints the knowledge state it was given. *)
Lemma generate_feedback_with_graphrag_llm_run
    (fields ks ctx : list (string * json)) (w : world) :
  exists text r1 r3 r4,
    generate_feedback_with_graphrag_llm (JObj fields) (JObj ks) (JObj ctx) w
    = ({| log := log w
                   ++ [r1;
                       {| lr_logger := LlmLogger; lr_level := INFO;
                          lr_msg := [T "Student KT State: "; V (JObj ks)];
                          lr_exc := None |};
                       r3; r4];
          gen := gen w |},
       Ok text).
Proof.
  unfold generate_feedback_with_graphrag_llm, get, bind, ret, log_info, emit.
  cbn [log gen].
  repeat rewrite <- app_assoc. cbn [app].
  do 4 eexists. reflexivity.
Qed.

(** An object in which one of the three identifiers is not truthy: the 400
    answer, after the one record of the request. *)
Lemma generate_feedback_rejects
    (auth : option string) (fields : list (string * json)) (w : world) :
  all [dict_get_or "attemptid" fields JNull;
       dict_get_or "userid" fields JNull;
       dict_get_or "courseid" fields JNull] = false ->
  generate_feedback
    {| authorization := auth; json_body := Decoded (JObj fields) |} w
  = ({| log := log w
                 ++ [received "/api/generate_feedback" (JObj fields)];
        gen := gen w |},
     Ok missing_fields_response).
Proof.
  intros Hall.
  unfold generate_feedback. decode.
  unfold try_except, get, bind, ret, log_info, emit.
  cbn [json_body log gen]. rewrite Hall. reflexivity.
Qed.

(** An object with the three identifiers truthy and two sized sequences: the
    200 answer, with the feedback text alone. *)
Lemma generate_feedback_accepts
    (auth : option string) (fields : list (string * json)) (w : world)
    (n m : nat) :
  all [dict_get_or "attemptid" fields JNull;
       dict_get_or "userid" fields JNull;
       dict_get_or "courseid" fields JNull] = true ->
  size_of (dict_get_or "responses" fields (JList [])) = Some n ->
  size_of (dict_get_or "history" fields (JList [])) = Some m ->
  exists text w',
    generate_feedback
      {| authorization := auth; json_body := Decoded (JObj fields) |} w
    = (w', Ok (jsonify (JObj [("status", JStr "success");
                              ("feedback", JStr text)]) 200))
    /\ In {| lr_logger := LlmLogger; lr_level := INFO;
             lr_msg :=
               [T "Student KT State: ";
                V (placeholder_state (dict_get_or "userid" fields JNull)
                     (dict_get_or "courseid" fields JNull) n m)];
             lr_exc := None |} (log w').
Proof.
  intros Hall Hn Hm.
  unfold generate_feedback. decode. unfold try_except, bind at 1.
  unfold log_info at 1, emit. cbn [json_body].
  unfold get, bind, ret. rewrite Hall. cbn [negb].
  rewrite trace_student_knowledge_run, Hn, Hm. cbv zeta.
  unfold placeholder_state at 1 2.
  match goal with
  | |- context [generate_feedback_with_graphrag_llm (JObj ?a) (JObj ?k) (JObj ?c) ?w0] =>
      destruct (generate_feedback_with_graphrag_llm_run a k c w0)
        as (text & r1 & r3 & r4 & Hrun)
  end.
  rewrite Hrun. exists text. eexists. split; [reflexivity|].
  cbn [log]. apply in_or_app. right. right. left. reflexivity.
Qed.

Lemma generate_feedback_total
    (auth : option string) (data : json) (w : world) :
  exists w' r,
    generate_feedback {| authorization := auth; json_body := Decoded data |} w
    = (w', Ok r).
Proof.
  unfold generate_feedback. decode. unfold try_except, bind at 1.
  unfold log_info at 1, emit.
  match goal with
  | |- context [match ?b ?w0 with _ => _ end] => destruct (b w0) as [w1 [r|e]]
  end.
  - do 2 eexists; reflexivity.
  - unfold bind, log_exception, emit, ret. do 2 eexists; reflexivity.
Qed.

(** ** Inversion of the sequencing operators *)

Lemma bind_ok_inv {A B} (m : M A) (k : A -> M B) (w w' : world) (b : B) :
  bind m k w = (w', Ok b) ->
  exists a w1, m w = (w1, Ok a) /\ k a w1 = (w', Ok b).
Proof.
  unfold bind. destruct (m w) as [w1 [a|e]]; intros H.
  - exists a, w1. split; [reflexivity | exact H].
  - discriminate H.
Qed.

Lemma try_except_ok_inv {A} (body : M A) (h : exn -> M A) (w w' : world)
    (a : A) :
  try_except body h w = (w', Ok a) ->
  body w = (w', Ok a)
  \/ exists e w1, body w = (w1, Raise e) /\ h e w1 = (w', Ok a).
Proof.
  unfold try_except. destruct (body w) as [w1 [x|e]]; intros H.
  - left. exact H.
  - right. exists e, w1. split; [reflexivity | exact H].
Qed.

Lemma ret_ok_inv {A} (a b : A) (w w' : world) :
  ret a w = (w', Ok b) -> w' = w /\ b = a.
Proof. unfold ret. intros H. injection H as <- <-. split; reflexivity. Qed.

Lemma emit_gen (r : log_record) (w w' : world) (u : unit) :
  emit r w = (w', Ok u) -> gen w' = gen w.
Proof. unfold emit. intros H. injection H as <- _. reflexivity. Qed.

Lemma slice_to_gen (n : nat) (v v' : json) (w w' : world) :
  slice_to n v w = (w', Ok v') -> w' = w.
Proof.
  destruct v; cbn; unfold raise, ret; intros H;
    try discriminate H; injection H as <- _; reflexivity.
Qed.

(** ** World-blind computations *)

Lemma world_blind_ret {A} (a : A) : world_blind (ret a).
Proof. intros w1 w2. reflexivity. Qed.

Lemma world_blind_raise {A} (e : exn) : world_blind (@raise rs A e).
Proof. intros w1 w2. reflexivity. Qed.

Lemma world_blind_emit (r : log_record) : world_blind (emit r).
Proof. intros w1 w2. reflexivity. Qed.

Lemma world_blind_bind {A B} (m : M A) (k : A -> M B) :
  world_blind m -> (forall a, world_blind (k a)) -> world_blind (bind m k).
Proof.
  intros Hm Hk w1 w2. unfold bind.
  specialize (Hm w1 w2).
  destruct (m w1) as [w1' [a1|e1]], (m w2) as [w2' [a2|e2]];
    cbn [snd] in Hm; try discriminate Hm.
  - injection Hm as ->. apply Hk.
  - injection Hm as ->. reflexivity.
Qed.

Lemma world_blind_try_except {A} (body : M A) (h : exn -> M A) :
  world_blind body -> (forall e, world_blind (h e)) ->
  world_blind (try_except body h).
Proof.
  intros Hb Hh w1 w2. unfold try_except.
  specialize (Hb w1 w2).
  destruct (body w1) as [w1' [a1|e1]], (body w2) as [w2' [a2|e2]];
    cbn [snd] in Hb; try discriminate Hb.
  - exact Hb.
  - injection Hb as ->. apply Hh.
Qed.

Lemma world_blind_get (d : json) (k : string) (default : json) :
  world_blind (get d k default).
Proof. destruct d; intros w1 w2; reflexivity. Qed.

Lemma world_blind_len (v : json) : world_blind (len v).
Proof. destruct v; intros w1 w2; reflexivity. Qed.

Lemma world_blind_if {A} (c : bool) (m1 m2 : M A) :
  world_blind m1 -> world_blind m2 -> world_blind (if c then m1 else m2).
Proof. destruct c; auto. Qed.

Create HintDb blind.
#[local] Hint Resolve world_blind_ret world_blind_raise world_blind_emit
  world_blind_get world_blind_len world_blind_if : blind.

Ltac blind :=
  repeat first
    [ apply world_blind_bind; [|intro]
    | apply world_blind_try_except; [|intro]
    | apply world_blind_if
    | solve [auto with blind]
    | unfold log_info, log_warning, log_error, log_exception ].

Lemma world_blind_trace_student_knowledge
    (user_id course_id responses history content_views : json) :
  world_blind
    (trace_student_knowledge user_id course_id responses history
       content_views).
Proof. unfold trace_student_knowledge. blind. Qed.

Lemma world_blind_generate_feedback_with_graphrag_llm
    (attempt_data student_kt_state course_context : json) :
  world_blind
    (generate_feedback_with_graphrag_llm attempt_data student_kt_state
       course_context).
Proof. unfold generate_feedback_with_graphrag_llm. blind. Qed.

Lemma world_blind_request_json (req : request) :
  world_blind (request_json req).
Proof.
  unfold request_json. destruct (json_body req); intros w1 w2; reflexivity.
Qed.

Lemma world_blind_generate_feedback (req : request) :
  world_blind (generate_feedback req).
Proof.
  pose proof world_blind_request_json.
  unfold generate_feedback. cbv zeta.
  pose proof world_blind_trace_student_knowledge.
  pose proof world_blind_generate_feedback_with_graphrag_llm.
  blind.
Qed.

(** ** The decorator *)

Lemma require_api_key_authenticated
    (key : string) (f : request -> M response) (req : request) :
  authenticated key req = true -> require_api_key key f req = f req.
Proof.
  unfold authenticated, require_api_key.
  destruct (authorization req) as [h|]; [|discriminate].
  destruct (h =? "")%string; [discriminate|].
  destruct (key =? "")%string; [discriminate|].
  cbn [negb andb].
  destruct (str_split h) as [|a [|b [|c l]]]; try discriminate.
  destruct (str_lower a =? "bearer")%string; [|discriminate].
  destruct (b =? key)%string; [|discriminate].
  reflexivity.
Qed.

Lemma world_blind_require_api_key
    (key : string) (f : request -> M response) (req : request) :
  world_blind (f req) -> world_blind (require_api_key key f req).
Proof.
  intros Hf. unfold require_api_key.
  destruct (authorization req) as [h|]; [|blind].
  destruct (h =? "")%string; [blind|].
  destruct (key =? "")%string; [blind|].
  destruct (str_split h) as [|a [|b [|c l]]]; blind.
Qed.

(** ** The feedback route, case by case *)

Lemma generate_feedback_not_object
    (auth : option string) (data : json) (w : world) :
  (forall fields, data <> JObj fields) ->
  generate_feedback {| authorization := auth; json_body := Decoded data |} w
  = ({| log := (log w ++ [received "/api/generate_feedback" data])
                 ++ [{| lr_logger := AppLogger; lr_level := ERROR;
                        lr_msg := [T "Error in /api/generate_feedback: "];
                        lr_exc := Some (NoAttribute (type_of data) "get") |}];
        gen := gen w |},
     Ok (jsonify
           (error_body "An internal error occurred while generating feedback.")
           500)).
Proof.
  intros Hd. destruct data; try reflexivity.
  exfalso. apply (Hd fields). reflexivity.
Qed.

Lemma generate_feedback_unsized
    (auth : option string) (fields : list (string * json)) (w : world) :
  all [dict_get_or "attemptid" fields JNull;
       dict_get_or "userid" fields JNull;
       dict_get_or "courseid" fields JNull] = true ->
  size_of (dict_get_or "responses" fields (JList [])) = None
  \/ size_of (dict_get_or "history" fields (JList [])) = None ->
  exists w',
    generate_feedback
      {| authorization := auth; json_body := Decoded (JObj fields) |} w
    = (w', Ok (jsonify
                 (error_body "An internal error occurred while generating feedback.")
                 500)).
Proof.
  intros Hall Hsize.
  unfold generate_feedback. decode. unfold try_except, bind at 1.
  unfold log_info at 1, emit. cbn [json_body].
  unfold get, bind, ret. rewrite Hall. cbn [negb].
  rewrite trace_student_knowledge_run. cbv zeta.
  destruct (size_of (dict_get_or "responses" fields (JList []))) as [n|].
  - destruct (size_of (dict_get_or "history" fields (JList []))) as [m|].
    + destruct Hsize; discriminate.
    + eexists. unfold log_exception, emit. reflexivity.
  - eexists. unfold log_exception, emit. reflexivity.
Qed.

(** A successful answer of the handler comes from the one path that ends in
    [status: success]. *)
Lemma generate_feedback_success_inv
    (req : request) (w w' : world) (r : response) :
  generate_feedback req w = (w', Ok r) ->
  field "status" (body r) = Some (JStr "success") ->
  exists fields n m text,
    json_body req = Decoded (JObj fields)
    /\ size_of (dict_get_or "responses" fields (JList [])) = Some n
    /\ size_of (dict_get_or "history" fields (JList [])) = Some m
    /\ r = jsonify (JObj [("status", JStr "success");
                          ("feedback", JStr text)]) 200
    /\ In {| lr_logger := LlmLogger; lr_level := INFO;
             lr_msg :=
               [T "Student KT State: ";
                V (placeholder_state (dict_get_or "userid" fields JNull)
                     (dict_get_or "courseid" fields JNull) n m)];
             lr_exc := None |} (log w').
Proof.
  destruct req as [auth [data | |]]; intros Hrun Hstatus;
    try discriminate Hrun.
  assert (Hobj : (exists fields, data = JObj fields)
                 \/ (forall fields, data <> JObj fields)).
  { destruct data; try (right; intros f Hf; discriminate Hf).
    left. eexists. reflexivity. }
  destruct Hobj as [[fields ->] | Hno].
  2:{ rewrite (generate_feedback_not_object auth data w Hno) in Hrun.
      injection Hrun as _ <-. discriminate Hstatus. }
  destruct (all [dict_get_or "attemptid" fields JNull;
                 dict_get_or "userid" fields JNull;
                 dict_get_or "courseid" fields JNull]) eqn:Hall.
  2:{ rewrite (generate_feedback_rejects auth fields w Hall) in Hrun.
      injection Hrun as _ <-. discriminate Hstatus. }
  destruct (size_of (dict_get_or "responses" fields (JList []))) as [n|] eqn:Hn.
  2:{ destruct (generate_feedback_unsized auth fields w Hall (or_introl Hn))
        as [w1 H1].
      rewrite H1 in Hrun. injection Hrun as _ <-. discriminate Hstatus. }
  destruct (size_of (dict_get_or "history" fields (JList []))) as [m|] eqn:Hm.
  2:{ destruct (generate_feedback_unsized auth fields w Hall (or_intror Hm))
        as [w1 H1].
      rewrite H1 in Hrun. injection Hrun as _ <-. discriminate Hstatus. }
  destruct (generate_feedback_accepts auth fields w n m Hall Hn Hm)
    as (text & w1 & H1 & Hlog).
  rewrite H1 in Hrun. injection Hrun as <- <-.
  exists fields, n, m, text. cbn [json_body]. auto.
Qed.

(** ** Dictionaries *)

Lemma dict_get_remove (k : string) (d : list (string * json)) :
  dict_get k (dict_remove k d) = None.
Proof.
  induction d as [|[k' v] d IH]; [reflexivity|].
  cbn [dict_remove]. destruct (k =? k')%string eqn:E; [exact IH|].
  cbn [dict_get]. rewrite E. exact IH.
Qed.

Lemma all_false_of_falsy (k : string) (fields : list (string * json)) :
  In k required_identifiers ->
  truthy (dict_get_or k fields JNull) = false ->
  all [dict_get_or "attemptid" fields JNull;
       dict_get_or "userid" fields JNull;
       dict_get_or "courseid" fields JNull] = false.
Proof.
  unfold required_identifiers, all. cbn [In forallb].
  intros [<- | [<- | [<- | []]]] ->;
    repeat rewrite ?andb_false_r, ?andb_false_l; reflexivity.
Qed.

(** The integer 0, the empty string and null are not truthy. *)
Lemma falsy_values :
  truthy (JInt 0) = false /\ truthy (JStr "") = false /\ truthy JNull = false.
Proof. repeat split. Qed.

End ServiceLemmas.

(* ================================================================== *)
(** * The knowledge-tracing step *)
(* ================================================================== *)

Section KnowledgeTracing.
Context {fmt : Formatting} {rs : RandomSource}.

(** C2, as the code has it: for student 42 in course 7 with the three correct
    responses tagged [linear_equations], the step returns the placeholder
    state, in which [concepts_mastered] is [concept_A, concept_B] and does
    not hold [linear_equations], and the overall estimate is 0.65, below
    0.75; processing the same three responses a second time returns the
    same state. *)
Theorem scenario_returns_placeholder (w : world) :
  exists w1 w2 ks,
    trace_student_knowledge (JInt 42) (JInt 7) scenario_responses
      (JList []) (JList []) w = (w1, Ok ks)
    /\ trace_student_knowledge (JInt 42) (JInt 7) scenario_responses
         (JList []) (JList []) w1 = (w2, Ok ks)
    /\ field "concepts_mastered" ks
       = Some (JList [JStr "concept_A"; JStr "concept_B"])
    /\ ~ In (JStr "linear_equations") [JStr "concept_A"; JStr "concept_B"]
    /\ field "overall_proficiency_estimate" ks = Some (JFloat float_0_65)
    /\ (float_0_65 < 3 # 4)%Q.
Proof.
  do 3 eexists.
  rewrite !trace_student_knowledge_run. cbn [size_of scenario_responses].
  cbv zeta. repeat split.
  - cbn. intros [H | [H | []]]; discriminate H.
Qed.

(** C3, as the code has it: whatever the three input sequences hold, the
    returned [concepts_mastered] is [concept_A, concept_B], the returned
    [concepts_struggling] is [concept_C] and the overall estimate is 0.65;
    so a concept other than these three is in neither list, and no evidence
    in the inputs contributes to the estimate. *)
Theorem lists_and_estimate_are_fixed
    (user_id course_id responses history content_views : json)
    (w w' : world) (ks : json) :
  trace_student_knowledge user_id course_id responses history content_views w
  = (w', Ok ks) ->
  field "concepts_mastered" ks
  = Some (JList [JStr "concept_A"; JStr "concept_B"])
  /\ field "concepts_struggling" ks = Some (JList [JStr "concept_C"])
  /\ field "overall_proficiency_estimate" ks = Some (JFloat float_0_65)
  /\ forall c : string,
       c <> "concept_A" -> c <> "concept_B" -> c <> "concept_C" ->
       ~ In (JStr c) [JStr "concept_A"; JStr "concept_B"]
       /\ ~ In (JStr c) [JStr "concept_C"].
Proof.
  rewrite trace_student_knowledge_run. cbv zeta.
  destruct (size_of responses) as [n|]; [|discriminate].
  destruct (size_of history) as [m|]; [|discriminate].
  intros H. injection H as _ <-.
  repeat split; try reflexivity.
  - intros [Hc | [Hc | []]]; injection Hc as <-; congruence.
  - intros [Hc | []]; injection Hc as <-; congruence.
Qed.

(** C4: the knowledge state of a second call with the same inputs is that of
    the first call, and so is the answer of the feedback route to a request
    sent again. *)
Theorem same_evidence_twice_same_state
    (user_id course_id responses history content_views : json)
    (key : string) (req : request) (w : world) :
  snd (trace_student_knowledge user_id course_id responses history
         content_views
         (fst (trace_student_knowledge user_id course_id responses history
                 content_views w)))
  = snd (trace_student_knowledge user_id course_id responses history
           content_views w)
  /\ snd (route_generate_feedback key req
            (fst (route_generate_feedback key req w)))
     = snd (route_generate_feedback key req w).
Proof.
  split.
  - apply world_blind_trace_student_knowledge.
  - apply world_blind_require_api_key, world_blind_generate_feedback.
Qed.

(** C5: for every user, course and sequences of responses, history and
    content views, the step returns a knowledge state whose overall
    proficiency estimate is present, is a float and lies in [0,1]. *)
Theorem overall_estimate_defined_in_unit_interval
    (user_id course_id : json) (responses history content_views : list json)
    (w : world) :
  exists w' ks x,
    trace_student_knowledge user_id course_id (JList responses)
      (JList history) (JList content_views) w = (w', Ok ks)
    /\ field "overall_proficiency_estimate" ks = Some (JFloat x)
    /\ in_unit_closed x.
Proof.
  rewrite trace_student_knowledge_run. cbn [size_of]. cbv zeta.
  do 3 eexists. split; [reflexivity|]. split; [reflexivity|].
  unfold in_unit_closed, float_0_65, Qle. cbn. lia.
Qed.

End KnowledgeTracing.

(* ================================================================== *)
(** * The route /api/generate_feedback *)
(* ================================================================== *)

Section GenerateFeedback.
Context {fmt : Formatting} {rs : RandomSource}.
Variable LMS_API_KEY : string.

(** C1, as the code has it: the body of every successful answer to an
    authenticated request is exactly [status: success] and a [feedback]
    string, with code 200 and no [knowledge_state]; the knowledge state, with
    its fields [concepts_mastered], [concepts_struggling] and a float
    [overall_proficiency_estimate], is computed on the way and handed to the
    feedback generator, which logs it. *)
Theorem success_carries_feedback
    (req : request) (w w' : world) (r : response) :
  authenticated LMS_API_KEY req = true ->
  route_generate_feedback LMS_API_KEY req w = (w', Ok r) ->
  field "status" (body r) = Some (JStr "success") ->
  status_code r = 200%Z
  /\ (exists text,
         body r = JObj [("status", JStr "success"); ("feedback", JStr text)])
  /\ ~ carries_knowledge_state (body r)
  /\ exists ks mastered struggling x,
       In {| lr_logger := LlmLogger; lr_level := INFO;
             lr_msg := [T "Student KT State: "; V ks];
             lr_exc := None |} (log w')
       /\ field "concepts_mastered" ks = Some (JList mastered)
       /\ field "concepts_struggling" ks = Some (JList struggling)
       /\ field "overall_proficiency_estimate" ks = Some (JFloat x).
Proof.
  intros Hauth Hrun Hstatus.
  unfold route_generate_feedback in Hrun.
  rewrite (require_api_key_authenticated _ _ _ Hauth) in Hrun.
  destruct (generate_feedback_success_inv req w w' r Hrun Hstatus)
    as (fields & n & m & text & _ & _ & _ & -> & Hlog).
  split; [reflexivity|]. split; [exists text; reflexivity|]. split.
  - intros (ks & mastered & struggling & x & Hks & _). discriminate Hks.
  - eexists _, _, _, _. split; [exact Hlog|]. repeat split.
Qed.

(** C6: an authenticated request that carries truthy [attemptid], [userid]
    and [courseid] and empty [responses], [history] and [contentviews] lists
    is answered 200 with [status: success]; no error is raised. *)
Theorem empty_sequences_succeed
    (req : request) (fields : list (string * json)) (w : world) :
  authenticated LMS_API_KEY req = true ->
  json_body req = Decoded (JObj fields) ->
  truthy (dict_get_or "attemptid" fields JNull) = true ->
  truthy (dict_get_or "userid" fields JNull) = true ->
  truthy (dict_get_or "courseid" fields JNull) = true ->
  dict_get "responses" fields = Some (JList []) ->
  dict_get "history" fields = Some (JList []) ->
  dict_get "contentviews" fields = Some (JList []) ->
  exists w' r,
    route_generate_feedback LMS_API_KEY req w = (w', Ok r)
    /\ status_code r = 200%Z
    /\ field "status" (body r) = Some (JStr "success").
Proof.
  intros Hauth Hbody Ha Hu Hc Hr Hh _.
  unfold route_generate_feedback.
  rewrite (require_api_key_authenticated _ _ _ Hauth).
  destruct req as [auth data]. cbn [json_body] in Hbody. subst data.
  destruct (generate_feedback_accepts auth fields w 0 0)
    as (text & w' & Hrun & _).
  - unfold all. cbn [forallb]. rewrite Ha, Hu, Hc. reflexivity.
  - unfold dict_get_or. rewrite Hr. reflexivity.
  - unfold dict_get_or. rewrite Hh. reflexivity.
  - exists w', (jsonify (JObj [("status", JStr "success");
                               ("feedback", JStr text)]) 200).
    split; [exact Hrun|]. split; reflexivity.
Qed.


(** C8: an authenticated request in which [attemptid], [userid] or
    [courseid] is present with a value that is not truthy (among them the
    integer 0, the empty string and null) gets the missing-required-fields
    answer, code 400, which is the answer to the same request without that
    field. *)
Theorem falsy_identifier_is_rejected_as_absent
    (req : request) (fields : list (string * json)) (k : string) (v : json)
    (w : world) :
  authenticated LMS_API_KEY req = true ->
  json_body req = Decoded (JObj fields) ->
  In k required_identifiers ->
  dict_get k fields = Some v ->
  truthy v = false ->
  snd (route_generate_feedback LMS_API_KEY req w) = Ok missing_fields_response
  /\ status_code missing_fields_response = 400%Z
  /\ snd (route_generate_feedback LMS_API_KEY (without_field k req) w)
     = snd (route_generate_feedback LMS_API_KEY req w).
Proof.
  intros Hauth Hbody Hk Hget Hfalsy.
  assert (Hauth' : authenticated LMS_API_KEY (without_field k req) = true)
    by exact Hauth.
  unfold route_generate_feedback.
  rewrite (require_api_key_authenticated _ _ _ Hauth).
  rewrite (require_api_key_authenticated _ _ _ Hauth').
  destruct req as [auth data]. cbn [json_body] in Hbody. subst data.
  unfold without_field. cbn [authorization json_body].
  rewrite (generate_feedback_rejects auth fields w).
  2:{ apply (all_false_of_falsy k); [exact Hk|].
      unfold dict_get_or. rewrite Hget. exact Hfalsy. }
  rewrite (generate_feedback_rejects auth (dict_remove k fields) w).
  2:{ apply (all_false_of_falsy k); [exact Hk|].
      unfold dict_get_or. rewrite dict_get_remove. reflexivity. }
  repeat split.
Qed.

End GenerateFeedback.

(* ================================================================== *)
(** * The question analysis *)
(* ================================================================== *)

Section QuestionAnalysis.
Context {fmt : Formatting} {rs : RandomSource}.
Variable LMS_API_KEY : string.

Lemma draws_length (n : nat) (g : rng_state) :
  List.length (fst (draws n g)) = n.
Proof.
  revert g. induction n as [|n IH]; intros g; [reflexivity|].
  cbn [draws]. destruct (next_53_bits g) as [k g1].
  specialize (IH g1). destruct (draws n g1) as [xs g2].
  cbn [fst List.length] in *. rewrite IH. reflexivity.
Qed.

Lemma draws_in_unit (n : nat) (g : rng_state) :
  Forall in_unit_half_open (fst (draws n g)).
Proof.
  revert g. induction n as [|n IH]; intros g; [constructor|].
  cbn [draws]. destruct (next_53_bits g) as [k g1].
  specialize (IH g1). destruct (draws n g1) as [xs g2].
  cbn [fst] in *. constructor; [|exact IH].
  pose proof (Z.mod_pos_bound k 9007199254740992 eq_refl) as Hk.
  unfold in_unit_half_open, Qle, Qlt. cbn [Qnum Qden]. lia.
Qed.

Lemma repeatM_py_random (n : nat) (w : world) :
  repeatM n py_random w
  = ({| log := log w; gen := snd (draws n (gen w)) |},
     Ok (fst (draws n (gen w)))).
Proof.
  revert w. induction n as [|n IH]; intros w.
  - destruct w. reflexivity.
  - cbn [repeatM draws]. unfold bind at 1. unfold py_random at 1.
    destruct (next_53_bits (gen w)) as [k g1].
    unfold bind at 1. rewrite IH. cbn [log gen].
    destruct (draws n g1) as [xs g2]. reflexivity.
Qed.

(** Whenever the embedding is returned, it is the next 128 floats of the
    generator, whatever the text. *)
Lemma generate_embedding_for_text_inv
    (text_content : json) (w w' : world) (emb : list Q) :
  generate_embedding_for_text text_content w = (w', Ok emb) ->
  emb = fst (draws 128 (gen w)) /\ gen w' = snd (draws 128 (gen w)).
Proof.
  unfold generate_embedding_for_text, bind, slice_to, log_info, emit, ret,
    raise.
  destruct text_content; try discriminate;
    rewrite repeatM_py_random; cbn [log gen];
    intros H; injection H as <- <-; split; reflexivity.
Qed.

Lemma generate_embedding_for_text_str (text : string) (w : world) :
  exists w',
    generate_embedding_for_text (JStr text) w
    = (w', Ok (fst (draws 128 (gen w))))
    /\ gen w' = snd (draws 128 (gen w)).
Proof.
  unfold generate_embedding_for_text, bind, slice_to, log_info, emit, ret.
  rewrite repeatM_py_random. cbn [log gen].
  eexists. split; reflexivity.
Qed.

(** Whenever the tags are returned, there is at least one. *)
Lemma extract_taxonomy_tags_for_text_inv
    (text_content : json) (w w' : world) (tags : list json) :
  extract_taxonomy_tags_for_text text_content w = (w', Ok tags) ->
  tags <> [].
Proof.
  unfold extract_taxonomy_tags_for_text, in_lower, lower, bind, slice_to,
    log_info, emit, ret, raise.
  destruct text_content; try discriminate.
  destruct (contains "algebra" (str_lower s));
    destruct (contains "solving equations" (str_lower s));
    cbn [app]; intros H; injection H as _ <-; discriminate.
Qed.

Lemma extract_taxonomy_tags_for_text_str (text : string) (w : world) :
  exists w' tags,
    extract_taxonomy_tags_for_text (JStr text) w = (w', Ok tags)
    /\ tags <> []
    /\ (contains "algebra" (str_lower text) = false ->
        contains "solving equations" (str_lower text) = false ->
        tags = [tag "General Knowledge" "topic"]).
Proof.
  unfold extract_taxonomy_tags_for_text, in_lower, lower, bind, slice_to,
    log_info, emit, ret.
  destruct (contains "algebra" (str_lower text));
    destruct (contains "solving equations" (str_lower text));
    cbn [app]; do 2 eexists; (split; [reflexivity|]);
    (split; [discriminate|]); intros Ha Hs;
    try discriminate Ha; try discriminate Hs; reflexivity.
Qed.

(** A successful answer of the handler comes from the one path that ends in
    [status: success], past the four analysis steps. *)
Lemma analyze_question_success_inv
    (req : request) (w w' : world) (r : response) :
  analyze_question req w = (w', Ok r) ->
  field "status" (body r) = Some (JStr "success") ->
  exists question_id question_text embedding cognitive_level solution_steps
         taxonomy_tags wa wb wc,
    generate_embedding_for_text question_text wa = (wb, Ok embedding)
    /\ extract_taxonomy_tags_for_text question_text wb = (wc, Ok taxonomy_tags)
    /\ r = jsonify
             (JObj [("status", JStr "success");
                    ("question_id", question_id);
                    ("embedding", JList (map JFloat embedding));
                    ("cognitive_level", JInt cognitive_level);
                    ("solution_steps", JList (map JStr solution_steps));
                    ("taxonomy", JList taxonomy_tags)])
             200.
Proof.
  intros Hrun Hstatus. unfold analyze_question in Hrun. cbv zeta in Hrun.
  apply bind_ok_inv in Hrun. destruct Hrun as (u & w0 & _ & Hrun).
  apply try_except_ok_inv in Hrun.
  destruct Hrun as [Hrun | (e & w1 & _ & Hh)].
  2:{ unfold bind, log_exception, emit, ret in Hh.
      injection Hh as _ <-. discriminate Hstatus. }
  apply bind_ok_inv in Hrun. destruct Hrun as (question_data & w1 & _ & Hrun).
  apply bind_ok_inv in Hrun. destruct Hrun as (question_id & w2 & _ & Hrun).
  apply bind_ok_inv in Hrun. destruct Hrun as (question_text & w3 & _ & Hrun).
  apply bind_ok_inv in Hrun. destruct Hrun as (question_type & w4 & _ & Hrun).
  apply bind_ok_inv in Hrun. destruct Hrun as (answers & w5 & _ & Hrun).
  destruct (all [question_id; question_text; question_type]); cbn [negb] in Hrun.
  2:{ apply ret_ok_inv in Hrun. destruct Hrun as [_ ->]. discriminate Hstatus. }
  apply bind_ok_inv in Hrun. destruct Hrun as (steps & w6 & _ & Hrun).
  apply bind_ok_inv in Hrun. destruct Hrun as (level & w7 & _ & Hrun).
  apply bind_ok_inv in Hrun. destruct Hrun as (emb & w8 & Hemb & Hrun).
  apply bind_ok_inv in Hrun. destruct Hrun as (tags & w9 & Htags & Hrun).
  apply ret_ok_inv in Hrun. destruct Hrun as [_ ->].
  exists question_id, question_text, emb, level, steps, tags, w7, w8, w9.
  split; [exact Hemb|]. split; [exact Htags | reflexivity].
Qed.

(** C9: for every text the tag extraction returns a list that is not empty,
    which is the default tag alone when neither keyword occurs in the text;
    and the [taxonomy] field of every successful answer of the route
    [/api/analyze_question] holds at least one tag. *)
Theorem taxonomy_is_never_empty :
  (forall (text : string) (w : world),
      exists w' tags,
        extract_taxonomy_tags_for_text (JStr text) w = (w', Ok tags)
        /\ tags <> []
        /\ (contains "algebra" (str_lower text) = false ->
            contains "solving equations" (str_lower text) = false ->
            tags = [JObj [("name", JStr "General Knowledge");
                          ("type", JStr "topic")]]))
  /\ (forall (req : request) (w w' : world) (r : response),
         authenticated LMS_API_KEY req = true ->
         route_analyze_question LMS_API_KEY req w = (w', Ok r) ->
         field "status" (body r) = Some (JStr "success") ->
         exists tags,
           field "taxonomy" (body r) = Some (JList tags) /\ tags <> []).
Proof.
  split.
  - apply extract_taxonomy_tags_for_text_str.
  - intros req w w' r Hauth Hrun Hstatus.
    unfold route_analyze_question in Hrun.
    rewrite (require_api_key_authenticated _ _ _ Hauth) in Hrun.
    destruct (analyze_question_success_inv req w w' r Hrun Hstatus)
      as (qid & qtext & emb & lvl & steps & tags & wa & wb & wc
          & _ & Htags & ->).
    exists tags. split; [reflexivity|].
    exact (extract_taxonomy_tags_for_text_inv _ _ _ _ Htags).
Qed.

(** The embedding of a text, and of the same text again: each call returns,
    with the next 128 floats of the generator, all in [0,1). *)
Lemma embedding_of_text_twice (text : string) (w : world) :
  exists w1 w2 emb1 emb2,
    generate_embedding_for_text (JStr text) w = (w1, Ok emb1)
    /\ generate_embedding_for_text (JStr text) w1 = (w2, Ok emb2)
    /\ emb1 = fst (draws 128 (gen w))
    /\ emb2 = fst (draws 128 (snd (draws 128 (gen w))))
    /\ List.length emb1 = 128%nat /\ Forall in_unit_half_open emb1
    /\ List.length emb2 = 128%nat /\ Forall in_unit_half_open emb2.
Proof.
  destruct (generate_embedding_for_text_str text w) as (w1 & H1 & Hg1).
  destruct (generate_embedding_for_text_str text w1) as (w2 & H2 & Hg2).
  exists w1, w2. do 2 eexists.
  split; [exact H1|]. split; [exact H2|].
  rewrite Hg1.
  repeat split; auto using draws_length, draws_in_unit.
Qed.

(** The [embedding] field of a successful answer of the route. *)
Lemma analyze_question_embedding
    (req : request) (w w' : world) (r : response) :
  authenticated LMS_API_KEY req = true ->
  route_analyze_question LMS_API_KEY req w = (w', Ok r) ->
  field "status" (body r) = Some (JStr "success") ->
  exists emb,
    field "embedding" (body r) = Some (JList (map JFloat emb))
    /\ List.length emb = 128%nat /\ Forall in_unit_half_open emb.
Proof.
  intros Hauth Hrun Hstatus.
  unfold route_analyze_question in Hrun.
  rewrite (require_api_key_authenticated _ _ _ Hauth) in Hrun.
  destruct (analyze_question_success_inv req w w' r Hrun Hstatus)
    as (qid & qtext & emb & lvl & steps & tags & wa & wb & wc
        & Hemb & _ & ->).
  exists emb. split; [reflexivity|].
  apply generate_embedding_for_text_inv in Hemb. destruct Hemb as [-> _].
  split; [apply draws_length | apply draws_in_unit].
Qed.

End QuestionAnalysis.

(** C10: for every text the embedding is a list of exactly 128 floats, each
    in [0,1): the next 128 draws of the generator, whatever the text.  A
    second call on the same text returns the 128 draws that follow, so the
    two embeddings need not be equal, and there is a generator for which
    they differ.  The [embedding] field of every successful answer of the
    route [/api/analyze_question] is such a list. *)
Theorem embedding_is_128_fresh_floats :
  (forall (fmt : Formatting) (rs : RandomSource) (text : string) (w : world),
      exists w1 w2 emb1 emb2,
        generate_embedding_for_text (JStr text) w = (w1, Ok emb1)
        /\ generate_embedding_for_text (JStr text) w1 = (w2, Ok emb2)
        /\ emb1 = fst (draws 128 (gen w))
        /\ emb2 = fst (draws 128 (snd (draws 128 (gen w))))
        /\ List.length emb1 = 128%nat /\ Forall in_unit_half_open emb1
        /\ List.length emb2 = 128%nat /\ Forall in_unit_half_open emb2)
  /\ (forall (fmt : Formatting) (rs : RandomSource) (key : string)
             (req : request) (w w' : world) (r : response),
         authenticated key req = true ->
         route_analyze_question key req w = (w', Ok r) ->
         field "status" (body r) = Some (JStr "success") ->
         exists emb,
           field "embedding" (body r) = Some (JList (map JFloat emb))
           /\ List.length emb = 128%nat /\ Forall in_unit_half_open emb)
  /\ (exists (fmt : Formatting) (rs : RandomSource) (text : string)
             (w w1 w2 : world) (emb1 emb2 : list Q),
         generate_embedding_for_text (JStr text) w = (w1, Ok emb1)
         /\ generate_embedding_for_text (JStr text) w1 = (w2, Ok emb2)
         /\ ~ (hd 0 emb1 == hd 0 emb2)%Q).
Proof.
  split; [|split].
  - intros fmt rs text w. apply embedding_of_text_twice.
  - intros fmt rs key req w w' r. apply analyze_question_embedding.
  - exists Examples.plain_formatting, Examples.counter,
      "What is algebra?", Examples.world0.
    do 4 eexists.
    split; [vm_compute; reflexivity|].
    split; [vm_compute; reflexivity|].
    vm_compute. discriminate.
Qed.

(* ================================================================== *)
(** * The API-key decorator *)
(* ================================================================== *)

Section Authentication.
Context {fmt : Formatting} {rs : RandomSource}.

Lemma has_space_app (a b : string) :
  has_space (a ++ b) = has_space a || has_space b.
Proof.
  induction a as [|c a IH]; [reflexivity|].
  cbn [append has_space]. rewrite IH, orb_assoc. reflexivity.
Qed.

Lemma string_app_empty_r (a : string) : (a ++ "")%string = a.
Proof. induction a as [|c a IH]; cbn; [|rewrite IH]; reflexivity. Qed.

Lemma string_app_assoc (a b c : string) :
  ((a ++ b) ++ c)%string = (a ++ b ++ c)%string.
Proof. induction a as [|x a IH]; cbn; [|rewrite IH]; reflexivity. Qed.

(** No word that [split] returns holds a whitespace character. *)
Lemma split_from_words (s word : string) :
  has_space word = false ->
  Forall (fun p => has_space p = false) (split_from word s).
Proof.
  revert word. induction s as [|c s IH]; intros word Hword; cbn [split_from].
  - destruct (word =? "")%string; repeat constructor; exact Hword.
  - destruct (is_space c) eqn:Hc.
    + destruct (word =? "")%string.
      * apply IH. reflexivity.
      * constructor; [exact Hword | apply IH; reflexivity].
    + apply IH. rewrite has_space_app, Hword. cbn. rewrite Hc. reflexivity.
Qed.

(** Splitting a run without whitespace followed by a whitespace character. *)
Lemma split_from_run (a rest word : string) (sp : ascii) :
  has_space a = false -> is_space sp = true ->
  split_from word (a ++ String sp rest)
  = if (word ++ a =? "")%string then split_from "" rest
    else (word ++ a)%string :: split_from "" rest.
Proof.
  revert word. induction a as [|c a IH]; intros word Ha Hsp.
  - cbn [append split_from]. rewrite Hsp, string_app_empty_r. reflexivity.
  - cbn [has_space] in Ha. apply orb_false_elim in Ha. destruct Ha as [Hc Ha].
    cbn [append split_from]. rewrite Hc, (IH _ Ha Hsp), string_app_assoc.
    reflexivity.
Qed.

Lemma split_from_last (a word : string) :
  has_space a = false ->
  split_from word a
  = if (word ++ a =? "")%string then [] else [(word ++ a)%string].
Proof.
  revert word. induction a as [|c a IH]; intros word Ha.
  - cbn [split_from]. rewrite string_app_empty_r. reflexivity.
  - cbn [has_space] in Ha. apply orb_false_elim in Ha. destruct Ha as [Hc Ha].
    cbn [split_from]. rewrite Hc, (IH _ Ha), string_app_assoc. reflexivity.
Qed.

Lemma str_lower_nonempty (s : string) : str_lower s <> "" -> s <> "".
Proof. intros H ->. apply H. reflexivity. Qed.

(** X1: a request that is not authenticated gets its answer from the decorator:
    the answer is the same whatever the handler, so the handler has not run;
    it is a 401 error, or the 500 error when no key is configured, and the
    log gains one record, which is not an [INFO] one. *)
Theorem unauthenticated_request_stops_at_decorator
    (key : string) (req : request) :
  authenticated key req = false ->
  exists record r,
    (forall (f : request -> M response) (w : world),
        require_api_key key f req w
        = ({| log := log w ++ [record]; gen := gen w |}, Ok r))
    /\ lr_logger record = AppLogger /\ lr_level record <> INFO
    /\ field "status" (body r) = Some (JStr "error")
    /\ (status_code r = 401%Z \/ (status_code r = 500%Z /\ key = "")).
Proof.
  unfold authenticated, require_api_key. intros Hno.
  destruct (authorization req) as [h|].
  2:{ do 2 eexists. split; [intros f w; reflexivity|].
      repeat split; try discriminate. left. reflexivity. }
  destruct (h =? "")%string eqn:Hh.
  { do 2 eexists. split; [intros f w; reflexivity|].
    repeat split; try discriminate. left. reflexivity. }
  destruct (key =? "")%string eqn:Hk.
  { apply String.eqb_eq in Hk.
    do 2 eexists. split; [intros f w; reflexivity|].
    repeat split; try discriminate. right. split; [reflexivity | exact Hk]. }
  cbn [negb andb] in Hno.
  destruct (str_split h) as [|a [|b [|c l]]];
    try (do 2 eexists; split; [intros f w; reflexivity|];
         repeat split; try discriminate; left; reflexivity).
  destruct (str_lower a =? "bearer")%string; cbn [andb negb orb] in *.
  - rewrite Hno. cbn [negb].
    do 2 eexists. split; [intros f w; reflexivity|].
    repeat split; try discriminate. left. reflexivity.
  - do 2 eexists. split; [intros f w; reflexivity|].
    repeat split; try discriminate. left. reflexivity.
Qed.

(** X2: a key that is not empty and holds no whitespace authenticates the header
    made of the scheme, one whitespace character and the key; the scheme is
    [bearer] in any letter case. *)
Theorem bearer_header_authenticates
    (key scheme : string) (sp : ascii) (data : payload) :
  key <> "" -> has_space key = false ->
  str_lower scheme = "bearer" -> has_space scheme = false ->
  is_space sp = true ->
  authenticated key
    {| authorization := Some (scheme ++ String sp key)%string;
       json_body := data |} = true.
Proof.
  intros Hkey Hks Hscheme Hss Hsp.
  assert (Hne : scheme <> "").
  { apply str_lower_nonempty. rewrite Hscheme. discriminate. }
  unfold authenticated. cbn [authorization].
  assert (Hh : ((scheme ++ String sp key) =? "")%string = false).
  { apply String.eqb_neq. destruct scheme; [congruence | discriminate]. }
  rewrite Hh.
  assert (Hk : (key =? "")%string = false) by (apply String.eqb_neq; exact Hkey).
  rewrite Hk. cbn [negb andb].
  unfold str_split. rewrite (split_from_run scheme key "" sp Hss Hsp).
  cbn [append].
  assert (Hs : (scheme =? "")%string = false) by (apply String.eqb_neq; exact Hne).
  rewrite Hs, (split_from_last key "" Hks). cbn [append]. rewrite Hk.
  rewrite Hscheme. cbn [andb String.eqb Ascii.eqb Bool.eqb].
  apply String.eqb_refl.
Qed.

(** X3: a configured key that holds a whitespace character locks every request
    out: no header can carry it as one word. *)
Theorem key_with_whitespace_authenticates_nothing
    (key : string) (req : request) :
  has_space key = true -> authenticated key req = false.
Proof.
  intros Hkey. unfold authenticated.
  destruct (authorization req) as [h|]; [|reflexivity].
  destruct (str_split h) as [|a [|b [|c l]]] eqn:Hsplit;
    try (rewrite !andb_false_r; reflexivity).
  assert (Hb : has_space b = false).
  { pose proof (split_from_words h "" eq_refl) as Hw.
    unfold str_split in Hsplit. rewrite Hsplit in Hw.
    inversion Hw as [|? ? _ Hw']. inversion Hw' as [|? ? Hb _]. exact Hb. }
  destruct (b =? key)%string eqn:E.
  - apply String.eqb_eq in E. congruence.
  - rewrite !andb_false_r. reflexivity.
Qed.

End Authentication.

(* ================================================================== *)
(** * Further properties of the knowledge tracing and of the feedback *)
(* ================================================================== *)

Section FeedbackProperties.
Context {fmt : Formatting} {rs : RandomSource}.
Variable LMS_API_KEY : string.

(** X4: the step returns exactly when [responses] and [history] have a length
    (a list, a string or a dictionary), [responses] being measured first;
    otherwise [len] raises on the first of the two that has none.  Nothing
    is asked of [content_views]. *)
Theorem knowledge_state_needs_two_sized_sequences
    (user_id course_id responses history content_views : json) (w : world) :
  exists w',
    trace_student_knowledge user_id course_id responses history
      content_views w
    = (w',
       match size_of responses, size_of history with
       | Some n, Some m => Ok (placeholder_state user_id course_id n m)
       | Some _, None => Raise (NoLen (type_of history))
       | None, _ => Raise (NoLen (type_of responses))
       end).
Proof.
  rewrite trace_student_knowledge_run. cbv zeta.
  destruct (size_of responses) as [n|], (size_of history) as [m|];
    eexists; reflexivity.
Qed.

(** X5: the state depends on the records only through the two lengths: two lists
    of responses of the same length, two histories of the same length and
    any content views give the same state, whatever the records say. *)
Theorem knowledge_state_ignores_record_contents
    (user_id course_id : json)
    (responses responses' history history' : list json)
    (content_views content_views' : json) (w w' : world) :
  List.length responses = List.length responses' ->
  List.length history = List.length history' ->
  snd (trace_student_knowledge user_id course_id (JList responses)
         (JList history) content_views w)
  = snd (trace_student_knowledge user_id course_id (JList responses')
           (JList history') content_views' w').
Proof.
  intros Hr Hh. rewrite !trace_student_knowledge_run. cbn [size_of]. cbv zeta.
  rewrite Hr, Hh. reflexivity.
Qed.

(** The feedback generator, given the request's fields and the placeholder
    state: its text. *)
Lemma generate_feedback_with_graphrag_llm_text
    (fields ctx : list (string * json)) (user_id course_id : json)
    (n m : nat) (w : world) :
  snd (generate_feedback_with_graphrag_llm (JObj fields)
         (placeholder_state user_id course_id n m) (JObj ctx) w)
  = Ok (placeholder_feedback fields).
Proof. reflexivity. Qed.

Lemma generate_feedback_accepts_text
    (auth : option string) (fields : list (string * json)) (w : world)
    (n m : nat) :
  all [dict_get_or "attemptid" fields JNull;
       dict_get_or "userid" fields JNull;
       dict_get_or "courseid" fields JNull] = true ->
  size_of (dict_get_or "responses" fields (JList [])) = Some n ->
  size_of (dict_get_or "history" fields (JList [])) = Some m ->
  snd (generate_feedback
         {| authorization := auth; json_body := Decoded (JObj fields) |} w)
  = Ok (jsonify (JObj [("status", JStr "success");
                       ("feedback", JStr (placeholder_feedback fields))]) 200).
Proof.
  intros Hall Hn Hm.
  unfold generate_feedback. decode. unfold try_except, bind at 1.
  unfold log_info at 1, emit. cbn [json_body].
  unfold get, bind, ret. rewrite Hall. cbn [negb].
  rewrite trace_student_knowledge_run, Hn, Hm. cbv beta iota zeta.
  match goal with
  | |- context [generate_feedback_with_graphrag_llm (JObj ?a)
                  (placeholder_state ?u ?c ?n ?m) (JObj ?x) ?w0] =>
      pose proof (generate_feedback_with_graphrag_llm_text a x u c n m w0)
        as Htext;
      destruct (generate_feedback_with_graphrag_llm (JObj a)
                  (placeholder_state u c n m) (JObj x) w0) as [w1 o]
  end.
  cbn [snd] in Htext. subst o. reflexivity.
Qed.

(** A successful answer of the handler, with its text. *)
Lemma generate_feedback_success_text
    (req : request) (w w' : world) (r : response) :
  generate_feedback req w = (w', Ok r) ->
  field "status" (body r) = Some (JStr "success") ->
  exists fields,
    json_body req = Decoded (JObj fields)
    /\ r = jsonify (JObj [("status", JStr "success");
                          ("feedback", JStr (placeholder_feedback fields))])
             200.
Proof.
  intros Hrun Hstatus.
  destruct (generate_feedback_success_inv req w w' r Hrun Hstatus)
    as (fields & n & m & text & Hbody & Hn & Hm & _ & _).
  exists fields. split; [exact Hbody|].
  destruct req as [auth data]. cbn [json_body] in Hbody. subst data.
  destruct (all [dict_get_or "attemptid" fields JNull;
                 dict_get_or "userid" fields JNull;
                 dict_get_or "courseid" fields JNull]) eqn:Hall.
  - pose proof (generate_feedback_accepts_text auth fields w n m Hall Hn Hm)
      as Htext.
    rewrite Hrun in Htext. cbn [snd] in Htext. injection Htext as ->.
    reflexivity.
  - rewrite (generate_feedback_rejects auth fields w Hall) in Hrun.
    injection Hrun as _ <-. discriminate Hstatus.
Qed.

(** X6: an authenticated request whose body is not a JSON object (null, a list,
    a number, a string) is answered 500 with the internal-error message; the
    log gains the record of the request and the one of the exception, and
    nothing of the two services. *)
Theorem feedback_body_not_object_is_internal_error
    (req : request) (data : json) (w : world) :
  authenticated LMS_API_KEY req = true ->
  json_body req = Decoded data ->
  (forall fields, data <> JObj fields) ->
  route_generate_feedback LMS_API_KEY req w
  = ({| log := (log w ++ [received "/api/generate_feedback" data])
                 ++ [{| lr_logger := AppLogger; lr_level := ERROR;
                        lr_msg := [T "Error in /api/generate_feedback: "];
                        lr_exc := Some (NoAttribute (type_of data) "get") |}];
        gen := gen w |},
     Ok (jsonify
           (error_body "An internal error occurred while generating feedback.")
           500)).
Proof.
  intros Hauth Hbody Hno. unfold route_generate_feedback.
  rewrite (require_api_key_authenticated _ _ _ Hauth).
  destruct req as [auth body0]. cbn [json_body] in Hbody. subst body0.
  apply generate_feedback_not_object. exact Hno.
Qed.

(** X7: with the three identifiers truthy, a [responses] or [history] field that
    is present but has no length (null, a number, a boolean) is not taken
    for an empty sequence: the request is answered 500. *)
Theorem feedback_unsized_sequence_is_internal_error
    (req : request) (fields : list (string * json)) (w : world) :
  authenticated LMS_API_KEY req = true ->
  json_body req = Decoded (JObj fields) ->
  truthy (dict_get_or "attemptid" fields JNull) = true ->
  truthy (dict_get_or "userid" fields JNull) = true ->
  truthy (dict_get_or "courseid" fields JNull) = true ->
  size_of (dict_get_or "responses" fields (JList [])) = None
  \/ size_of (dict_get_or "history" fields (JList [])) = None ->
  exists w',
    route_generate_feedback LMS_API_KEY req w
    = (w', Ok (jsonify
                 (error_body "An internal error occurred while generating feedback.")
                 500)).
Proof.
  intros Hauth Hbody Ha Hu Hc Hsize. unfold route_generate_feedback.
  rewrite (require_api_key_authenticated _ _ _ Hauth).
  destruct req as [auth data]. cbn [json_body] in Hbody. subst data.
  apply generate_feedback_unsized; [|exact Hsize].
  unfold all. cbn [forallb]. rewrite Ha, Hu, Hc. reflexivity.
Qed.

(** X8: the feedback of every successful answer is the fixed text: the greeting
    built from [studentfirstname] (default [Student]), [quizname] (default
    built from [quizid]) and [attemptid], then the sentences on the
    placeholder concepts. *)
Theorem feedback_text_is_placeholder
    (req : request) (w w' : world) (r : response) :
  authenticated LMS_API_KEY req = true ->
  route_generate_feedback LMS_API_KEY req w = (w', Ok r) ->
  field "status" (body r) = Some (JStr "success") ->
  exists fields,
    json_body req = Decoded (JObj fields)
    /\ field "feedback" (body r) = Some (JStr (placeholder_feedback fields)).
Proof.
  intros Hauth Hrun Hstatus. unfold route_generate_feedback in Hrun.
  rewrite (require_api_key_authenticated _ _ _ Hauth) in Hrun.
  destruct (generate_feedback_success_text req w w' r Hrun Hstatus)
    as (fields & Hbody & ->).
  exists fields. split; [exact Hbody | reflexivity].
Qed.

(** X9: the feedback never reads the interactions: two successful requests that
    agree on [attemptid], [quizid], [quizname] and [studentfirstname] get the
    same feedback, whatever their responses, history, content views, user
    and course. *)
Theorem feedback_ignores_interactions
    (req1 req2 : request) (fields1 fields2 : list (string * json))
    (w1 w1' w2 w2' : world) (r1 r2 : response) :
  authenticated LMS_API_KEY req1 = true ->
  authenticated LMS_API_KEY req2 = true ->
  json_body req1 = Decoded (JObj fields1) ->
  json_body req2 = Decoded (JObj fields2) ->
  (forall k,
      In k ["attemptid"; "quizid"; "quizname"; "studentfirstname"] ->
      dict_get k fields1 = dict_get k fields2) ->
  route_generate_feedback LMS_API_KEY req1 w1 = (w1', Ok r1) ->
  route_generate_feedback LMS_API_KEY req2 w2 = (w2', Ok r2) ->
  field "status" (body r1) = Some (JStr "success") ->
  field "status" (body r2) = Some (JStr "success") ->
  r1 = r2.
Proof.
  intros Hauth1 Hauth2 Hb1 Hb2 Hsame Hrun1 Hrun2 Hs1 Hs2.
  unfold route_generate_feedback in Hrun1, Hrun2.
  rewrite (require_api_key_authenticated _ _ _ Hauth1) in Hrun1.
  rewrite (require_api_key_authenticated _ _ _ Hauth2) in Hrun2.
  destruct (generate_feedback_success_text req1 w1 w1' r1 Hrun1 Hs1)
    as (f1 & Hf1 & ->).
  destruct (generate_feedback_success_text req2 w2 w2' r2 Hrun2 Hs2)
    as (f2 & Hf2 & ->).
  rewrite Hb1 in Hf1. injection Hf1 as <-.
  rewrite Hb2 in Hf2. injection Hf2 as <-.
  unfold placeholder_feedback, dict_get_or.
  rewrite (Hsame "attemptid"), (Hsame "quizid"), (Hsame "quizname"),
    (Hsame "studentfirstname"); cbn [In]; auto 6.
Qed.

End FeedbackProperties.

(* ================================================================== *)
(** * Further properties of the question analysis *)
(* ================================================================== *)

Section QuestionProperties.
Context {fmt : Formatting} {rs : RandomSource}.
Variable LMS_API_KEY : string.

Lemma generate_solution_steps_for_question_str
    (text : string) (question_type answers : json) (w : world) :
  generate_solution_steps_for_question (JStr text) question_type answers w
  = ({| log := log w
                 ++ [info LlmLogger
                       [T "Generating solution steps for question: ";
                        V (JStr (str_take 50 text)); T "..."]];
        gen := gen w |},
     Ok (solution_steps_of text question_type)).
Proof.
  unfold generate_solution_steps_for_question, solution_steps_of, bind,
    slice_to, log_info, emit, ret.
  destruct (eq_str question_type "multichoice"); reflexivity.
Qed.

Lemma classify_bloom_level_for_question_str
    (text : string) (answers : json) (w : world) :
  classify_bloom_level_for_question (JStr text) answers w
  = ({| log := log w
                 ++ [info LlmLogger
                       [T "Classifying Bloom's level for question: ";
                        V (JStr (str_take 50 text)); T "..."]];
        gen := gen w |},
     Ok (bloom_rule text)).
Proof.
  unfold classify_bloom_level_for_question, bloom_rule, orM, in_lower, lower,
    bind, slice_to, log_info, emit, ret.
  cbn [log gen]. cbv zeta.
  destruct (contains "define" (str_lower text)); [reflexivity|].
  destruct (contains "list" (str_lower text)); [reflexivity|].
  destruct (contains "explain" (str_lower text)); [reflexivity|].
  destruct (contains "summarize" (str_lower text)); [reflexivity|].
  destruct (contains "calculate" (str_lower text)); [reflexivity|].
  destruct (contains "solve" (str_lower text)); [reflexivity|].
  destruct (contains "apply" (str_lower text)); reflexivity.
Qed.

Lemma extract_taxonomy_tags_for_text_rule (text : string) (w : world) :
  extract_taxonomy_tags_for_text (JStr text) w
  = ({| log := log w
                 ++ [info LlmLogger
                       [T "Extracting taxonomy tags for text: ";
                        V (JStr (str_take 50 text)); T "..."]];
        gen := gen w |},
     Ok (taxonomy_rule text)).
Proof.
  unfold extract_taxonomy_tags_for_text, taxonomy_rule, in_lower, lower, bind,
    slice_to, log_info, emit, ret.
  cbn [log gen]. cbv zeta.
  destruct (contains "algebra" (str_lower text));
    destruct (contains "solving equations" (str_lower text)); reflexivity.
Qed.

(** X10: the Bloom level of a text is 1 when its lower-casing holds [define] or
    [list], else 2 when it holds [explain] or [summarize], else 3: never one
    of the levels 4 to 6 of the table. *)
Theorem bloom_level_follows_keywords
    (text : string) (answers : json) (w : world) :
  exists w',
    classify_bloom_level_for_question (JStr text) answers w
    = (w', Ok (bloom_rule text))
    /\ (1 <= bloom_rule text <= 3)%Z.
Proof.
  rewrite classify_bloom_level_for_question_str. eexists.
  split; [reflexivity|]. unfold bloom_rule. cbv zeta.
  destruct (contains "define" (str_lower text) || contains "list" (str_lower text));
    [lia|].
  destruct (contains "explain" (str_lower text)
            || contains "summarize" (str_lower text)); lia.
Qed.

(** X11: the tags of a text follow the two keywords: [Algebra] when the
    lower-cased text holds [algebra], then [Equation Solving] when it holds
    [solving equations], and [General Knowledge] alone when it holds
    neither; one or two tags, never the same twice. *)
Theorem taxonomy_tags_follow_keywords (text : string) (w : world) :
  exists w',
    extract_taxonomy_tags_for_text (JStr text) w = (w', Ok (taxonomy_rule text))
    /\ (1 <= List.length (taxonomy_rule text) <= 2)%nat
    /\ NoDup (taxonomy_rule text)
    /\ (In (tag "General Knowledge" "topic") (taxonomy_rule text)
        <-> contains "algebra" (str_lower text) = false
            /\ contains "solving equations" (str_lower text) = false).
Proof.
  rewrite extract_taxonomy_tags_for_text_rule. eexists.
  split; [reflexivity|]. unfold taxonomy_rule. cbv zeta.
  destruct (contains "algebra" (str_lower text));
    destruct (contains "solving equations" (str_lower text));
    cbn [List.length]; (split; [lia|]); split;
    try (repeat constructor; cbn [In]; intros H;
         repeat (destruct H as [H|H]; try discriminate H); exact H);
    split;
    try (intros H; cbn [In] in H;
         repeat (destruct H as [H|H]; try discriminate H); contradiction);
    try (intros [H1 H2]; discriminate);
    try (intros _; split; reflexivity);
    try (intros _; left; reflexivity).
Qed.

(** X12: level and tags do not depend on the letter case: two texts with the same
    lower-casing get the same level and the same tags. *)
Theorem analysis_ignores_letter_case
    (text text' : string) (answers answers' : json) (w w' : world) :
  str_lower text = str_lower text' ->
  snd (classify_bloom_level_for_question (JStr text) answers w)
  = snd (classify_bloom_level_for_question (JStr text') answers' w')
  /\ snd (extract_taxonomy_tags_for_text (JStr text) w)
     = snd (extract_taxonomy_tags_for_text (JStr text') w').
Proof.
  intros Hl.
  rewrite !classify_bloom_level_for_question_str,
    !extract_taxonomy_tags_for_text_rule.
  unfold bloom_rule, taxonomy_rule. rewrite Hl. split; reflexivity.
Qed.

Lemma str_take_length (n : nat) (s : string) :
  String.length (str_take n s) = Nat.min n (String.length s).
Proof.
  revert s. induction n as [|n IH]; intros s; [reflexivity|].
  destruct s as [|c s]; [reflexivity|].
  cbn [str_take String.length Nat.min]. rewrite IH. reflexivity.
Qed.

Lemma string_length_app (a b : string) :
  String.length (a ++ b) = (String.length a + String.length b)%nat.
Proof. induction a as [|c a IH]; cbn; [|rewrite IH]; reflexivity. Qed.

Lemma summarize_content_str (text : string) (w : world) :
  summarize_content (JStr text) w
  = ({| log := log w
                 ++ [info LlmLogger
                       [T "Summarizing content: ";
                        V (JStr (str_take 50 text)); T "..."]];
        gen := gen w |},
     Ok (summary_of text)).
Proof.
  unfold summarize_content, summary_of, bind, slice_to, log_info, emit, ret,
    format.
  cbn [map String.concat py_str]. reflexivity.
Qed.

(** X13: the summary of a text is the fixed opening, the first 100 characters of
    the text and three dots, never longer than 125 characters. *)
Theorem summary_keeps_first_100_characters (text : string) (w : world) :
  exists w',
    summarize_content (JStr text) w
    = (w', Ok ("This is a summary of: " ++ str_take 100 text ++ "...")%string)
    /\ String.length ("This is a summary of: " ++ str_take 100 text ++ "...")
       = summary_length text
    /\ (summary_length text <= 125)%nat.
Proof.
  rewrite summarize_content_str. eexists. split; [reflexivity|].
  unfold summary_length. split.
  - rewrite !string_length_app, str_take_length. cbn [String.length]. lia.
  - lia.
Qed.

(** ** The route /api/analyze_question *)



(** X15: a question with its three fields truthy whose text is not a string (a
    number, [true], a list, a dictionary) is answered 500: the analysis
    raises on the text. *)
Theorem question_text_not_string_is_internal_error
    (req : request) (fields q : list (string * json)) (w : world) :
  authenticated LMS_API_KEY req = true ->
  json_body req = Decoded (JObj fields) ->
  dict_get_or "question" fields (JObj []) = JObj q ->
  truthy (dict_get_or "id" q JNull) = true ->
  truthy (dict_get_or "text" q JNull) = true ->
  truthy (dict_get_or "type" q JNull) = true ->
  type_of (dict_get_or "text" q JNull) <> TStr ->
  exists w',
    route_analyze_question LMS_API_KEY req w
    = (w', Ok (jsonify
                 (error_body "An internal error occurred while analyzing the question.")
                 500)).
Proof.
  intros Hauth Hbody Hq Hid Htext Htype Hnot. unfold route_analyze_question.
  rewrite (require_api_key_authenticated _ _ _ Hauth).
  destruct req as [auth data]. cbn [json_body] in Hbody. subst data.
  unfold analyze_question. decode. unfold try_except, bind at 1.
  unfold log_info at 1, emit. cbn [json_body].
  unfold get at 1, bind at 1, ret at 1. rewrite Hq.
  unfold get, bind at 1 2 3 4, ret at 1 2 3 4.
  unfold all. cbn [forallb]. rewrite Hid, Htext, Htype. cbn [andb negb].
  destruct (dict_get_or "text" q JNull) as [| b | n | x | s | items | fs];
    try discriminate Htext; try (exfalso; apply Hnot; reflexivity);
    try (eexists; reflexivity).
  unfold bind at 1. unfold generate_solution_steps_for_question.
  unfold bind, slice_to, log_info, emit, ret.
  destruct (eq_str (dict_get_or "type" q JNull) "multichoice");
    eexists; reflexivity.
Qed.

(** X16: a question with truthy [id] and [type] and a text that is a string, not
    empty, is answered 200: the body echoes the [id], carries the level of
    the text, its steps (five for a [multichoice] question, four otherwise),
    its tags and, as the embedding, the next 128 floats of the generator,
    which is left 128 draws further. *)
Theorem question_analysis_succeeds
    (req : request) (fields q : list (string * json)) (text : string)
    (w : world) :
  authenticated LMS_API_KEY req = true ->
  json_body req = Decoded (JObj fields) ->
  dict_get_or "question" fields (JObj []) = JObj q ->
  truthy (dict_get_or "id" q JNull) = true ->
  dict_get_or "text" q JNull = JStr text -> text <> "" ->
  truthy (dict_get_or "type" q JNull) = true ->
  exists w',
    route_analyze_question LMS_API_KEY req w
    = (w',
       Ok (jsonify
             (JObj [("status", JStr "success");
                    ("question_id", dict_get_or "id" q JNull);
                    ("embedding",
                     JList (map JFloat (fst (draws 128 (gen w)))));
                    ("cognitive_level", JInt (bloom_rule text));
                    ("solution_steps",
                     JList (map JStr
                              (solution_steps_of text
                                 (dict_get_or "type" q JNull))));
                    ("taxonomy", JList (taxonomy_rule text))])
             200))
    /\ gen w' = snd (draws 128 (gen w))
    /\ List.length (solution_steps_of text (dict_get_or "type" q JNull))
       = (if eq_str (dict_get_or "type" q JNull) "multichoice"
          then 5 else 4)%nat.
Proof.
  intros Hauth Hbody Hq Hid Htext Hne Htype. unfold route_analyze_question.
  rewrite (require_api_key_authenticated _ _ _ Hauth).
  destruct req as [auth data]. cbn [json_body] in Hbody. subst data.
  unfold analyze_question. decode. unfold try_except, bind at 1.
  unfold log_info at 1, emit. cbn [json_body].
  unfold get at 1, bind at 1, ret at 1. rewrite Hq.
  unfold get, bind at 1 2 3 4, ret at 1 2 3 4.
  unfold all. cbn [forallb]. rewrite Hid, Htext, Htype.
  assert (Ht : truthy (JStr text) = true).
  { cbn. destruct text; [congruence | reflexivity]. }
  rewrite Ht. cbn [andb negb].
  unfold bind at 1. rewrite generate_solution_steps_for_question_str.
  unfold bind at 1. rewrite classify_bloom_level_for_question_str.
  unfold bind at 1.
  match goal with
  | |- context [generate_embedding_for_text (JStr text) ?w0] =>
      destruct (generate_embedding_for_text_str text w0) as (w1 & Hemb & Hg);
      rewrite Hemb
  end.
  unfold bind at 1. rewrite extract_taxonomy_tags_for_text_rule.
  unfold ret. cbn [gen] in *.
  eexists. split; [reflexivity|]. split; [exact Hg|].
  unfold solution_steps_of.
  destruct (eq_str (dict_get_or "type" q JNull) "multichoice"); reflexivity.
Qed.

End QuestionProperties.

(* ================================================================== *)
(** * The routes /api/analyze_course_content and /api/update_knowledge_graph *)
(* ================================================================== *)

Section CourseContent.
Context {fmt : Formatting} {rs : RandomSource}.
Variable LMS_API_KEY : string.

(** One item that can be analysed: skipped, or given its entry. *)
Lemma analyze_item_run
    (idkey textkey warning : string) (acc : list json) (item : json)
    (w : world) :
  analysable idkey textkey item = true ->
  exists w' entries,
    analyze_item idkey textkey warning acc item w = (w', Ok (acc ++ entries))
    /\ Forall2 (entry_of idkey textkey)
         (filter (kept idkey textkey) [item]) entries.
Proof.
  destruct item as [| | | | | |c]; try discriminate.
  intros Hok. cbn [filter].
  unfold analyze_item, get, bind at 1 2, ret at 1 2.
  unfold analysable in Hok.
  unfold kept in *. unfold all. cbn [forallb]. rewrite andb_true_r.
  destruct (truthy (dict_get_or idkey c JNull)
            && truthy (dict_get_or textkey c JNull)) eqn:Hkept.
  - cbn [negb orb] in Hok.
    destruct (dict_get_or textkey c JNull) as [| | | |s| |] eqn:Htext;
      try discriminate Hok.
    cbn [negb].
    unfold bind at 1. rewrite summarize_content_str.
    unfold bind at 1. rewrite extract_taxonomy_tags_for_text_rule.
    unfold bind at 1.
    match goal with
    | |- context [generate_embedding_for_text (JStr s) ?w0] =>
        destruct (generate_embedding_for_text_str s w0) as (w1 & Hemb & _);
        rewrite Hemb
    end.
    unfold ret. do 2 eexists. split; [reflexivity|].
    constructor; [|constructor].
    exists c, s. eexists. split; [reflexivity|]. split; [exact Htext|].
    split; [reflexivity|].
    split; [apply draws_length | apply draws_in_unit].
  - cbn [negb]. unfold bind, log_warning, emit, ret.
    exists {| log := log w ++ [{| lr_logger := AppLogger; lr_level := WARNING;
                                  lr_msg := [T warning; V (JObj c)];
                                  lr_exc := None |}];
              gen := gen w |}, [].
    rewrite app_nil_r. split; [reflexivity | constructor].
Qed.

Lemma Forall2_app_entries {A B} (R : A -> B -> Prop)
    (l1 l2 : list A) (m1 m2 : list B) :
  Forall2 R l1 m1 -> Forall2 R l2 m2 -> Forall2 R (l1 ++ l2) (m1 ++ m2).
Proof. intros H1 H2. induction H1; cbn; [exact H2 | constructor; auto]. Qed.

(** A loop over items that can be analysed appends the entries of the kept
    ones, in order. *)
Lemma for_each_analyze_item
    (idkey textkey warning : string) (items : list json) (acc : list json)
    (w : world) :
  forallb (analysable idkey textkey) items = true ->
  exists w' entries,
    for_each items (analyze_item idkey textkey warning) acc w
    = (w', Ok (acc ++ entries))
    /\ Forall2 (entry_of idkey textkey)
         (filter (kept idkey textkey) items) entries.
Proof.
  revert acc w. induction items as [|item items IH]; intros acc w Hok.
  - exists w, []. rewrite app_nil_r. split; [reflexivity | constructor].
  - cbn [forallb] in Hok. apply andb_prop in Hok. destruct Hok as [Hitem Hrest].
    destruct (analyze_item_run idkey textkey warning acc item w Hitem)
      as (w1 & e1 & Hrun1 & He1).
    destruct (IH (acc ++ e1) w1 Hrest) as (w2 & e2 & Hrun2 & He2).
    exists w2, (e1 ++ e2). cbn [for_each]. unfold bind. rewrite Hrun1, Hrun2.
    rewrite app_assoc. split; [reflexivity|].
    change (item :: items) with ([item] ++ items). rewrite filter_app.
    apply Forall2_app_entries; assumption.
Qed.

(** A loop over books whose chapters can be analysed. *)
Lemma for_each_analyze_book (books : list json) (acc : list json) (w : world) :
  forallb book_analysable books = true ->
  exists w' entries,
    for_each books analyze_book acc w = (w', Ok (acc ++ entries))
    /\ Forall2 (entry_of "chapterid" "content")
         (filter (kept "chapterid" "content")
            (List.concat (map chapters_of books)))
         entries.
Proof.
  revert acc w. induction books as [|book books IH]; intros acc w Hok.
  - exists w, []. rewrite app_nil_r. split; [reflexivity | constructor].
  - cbn [forallb] in Hok. apply andb_prop in Hok. destruct Hok as [Hbook Hrest].
    destruct book as [| | | | | |b]; try discriminate Hbook.
    cbn [book_analysable] in Hbook. cbn [map List.concat chapters_of].
    destruct (dict_get_or "chapters" b (JList [])) as [| | | | |chapters|]
      eqn:Hch; try discriminate Hbook.
    destruct (for_each_analyze_item "chapterid" "content"
                "Skipping chapter due to missing ID or content: "
                chapters acc w Hbook) as (w1 & e1 & Hrun1 & He1).
    destruct (IH (acc ++ e1) w1 Hrest) as (w2 & e2 & Hrun2 & He2).
    exists w2, (e1 ++ e2). cbn [for_each]. unfold bind at 1.
    unfold analyze_book at 1. unfold get, bind at 1, ret at 1. rewrite Hch.
    unfold bind at 1, iterate, ret at 1.
    change analyze_chapter
      with (analyze_item "chapterid" "content"
              "Skipping chapter due to missing ID or content: ").
    rewrite Hrun1, Hrun2, app_assoc. split; [reflexivity|].
    rewrite filter_app. apply Forall2_app_entries; assumption.
Qed.

(** X17: when every book is a dictionary with a list of chapters, and every
    chapter and H5P transcript is a dictionary whose text, if it is kept, is
    a string, the request is answered 200.  An item without a truthy
    identifier or text is skipped, which is not an error; the others give
    one entry each, in order, with the identifier echoed, the summary and
    tags of the text and an embedding of 128 floats of [0,1). *)
Theorem course_content_skips_incomplete_items
    (req : request) (fields : list (string * json)) (books h5ps : list json)
    (w : world) :
  authenticated LMS_API_KEY req = true ->
  json_body req = Decoded (JObj fields) ->
  dict_get_or "books" fields (JList []) = JList books ->
  forallb book_analysable books = true ->
  dict_get_or "h5p_transcripts" fields (JList []) = JList h5ps ->
  forallb (analysable "h5pid" "transcript") h5ps = true ->
  exists w' chapter_entries h5p_entries,
    route_analyze_course_content LMS_API_KEY req w
    = (w',
       Ok (jsonify
             (JObj [("status", JStr "success");
                    ("bookchapters", JList chapter_entries);
                    ("h5pactivities", JList h5p_entries)])
             200))
    /\ Forall2 (entry_of "chapterid" "content")
         (filter (kept "chapterid" "content")
            (List.concat (map chapters_of books)))
         chapter_entries
    /\ Forall2 (entry_of "h5pid" "transcript")
         (filter (kept "h5pid" "transcript") h5ps) h5p_entries.
Proof.
  intros Hauth Hbody Hbooks Hbok Hh5p Hhok.
  unfold route_analyze_course_content.
  rewrite (require_api_key_authenticated _ _ _ Hauth).
  destruct req as [auth data]. cbn [json_body] in Hbody. subst data.
  unfold analyze_course_content. decode. unfold try_except, bind at 1.
  unfold log_info at 1, emit. cbn [json_body].
  unfold get, bind at 1 2, ret at 1 2. rewrite Hbooks, Hh5p.
  unfold bind at 1, iterate at 1, ret at 1.
  unfold bind at 1.
  match goal with
  | |- context [for_each books analyze_book [] ?w0] =>
      destruct (for_each_analyze_book books [] w0 Hbok)
        as (w1 & e1 & Hrun1 & He1)
  end.
  rewrite Hrun1.
  unfold bind at 1, iterate, ret at 1.
  change analyze_h5p
    with (analyze_item "h5pid" "transcript"
            "Skipping H5P due to missing ID or transcript: ").
  destruct (for_each_analyze_item "h5pid" "transcript"
              "Skipping H5P due to missing ID or transcript: "
              h5ps [] w1 Hhok) as (w2 & e2 & Hrun2 & He2).
  unfold bind at 1. rewrite Hrun2. unfold ret.
  exists w2, e1, e2. cbn [app]. split; [reflexivity|]. split; assumption.
Qed.

(** X18: a [books] or [h5p_transcripts] field that cannot be iterated (null, a
    number, a boolean) is answered 500. *)
Theorem course_content_not_iterable_is_internal_error
    (req : request) (fields : list (string * json)) (w : world) :
  authenticated LMS_API_KEY req = true ->
  json_body req = Decoded (JObj fields) ->
  size_of (dict_get_or "books" fields (JList [])) = None
  \/ (dict_get_or "books" fields (JList []) = JList []
      /\ size_of (dict_get_or "h5p_transcripts" fields (JList [])) = None) ->
  exists w',
    route_analyze_course_content LMS_API_KEY req w
    = (w', Ok (jsonify
                 (error_body "An internal error occurred while analyzing course content.")
                 500)).
Proof.
  intros Hauth Hbody Hbad.
  unfold route_analyze_course_content.
  rewrite (require_api_key_authenticated _ _ _ Hauth).
  destruct req as [auth data]. cbn [json_body] in Hbody. subst data.
  unfold analyze_course_content. decode. unfold try_except, bind at 1.
  unfold log_info at 1, emit. cbn [json_body].
  unfold get, bind at 1 2, ret at 1 2.
  destruct Hbad as [Hb | [Hb Hh]].
  - destruct (dict_get_or "books" fields (JList [])); try discriminate Hb;
      eexists; reflexivity.
  - rewrite Hb.
    destruct (dict_get_or "h5p_transcripts" fields (JList []));
      try discriminate Hh; eexists; reflexivity.
Qed.

(** An item that cannot be analysed makes the loop body raise. *)
Lemma analyze_item_raises
    (idkey textkey warning : string) (acc : list json) (item : json)
    (w : world) :
  analysable idkey textkey item = false ->
  exists w' e,
    analyze_item idkey textkey warning acc item w = (w', Raise e).
Proof.
  destruct item as [| | | | | |c];
    try (intros _; do 2 eexists; reflexivity).
  unfold analysable, kept. intros Hbad.
  apply orb_false_elim in Hbad. destruct Hbad as [Hkept Htext].
  apply negb_false_iff in Hkept.
  unfold analyze_item, get, bind at 1 2, ret at 1 2.
  unfold all. cbn [forallb]. rewrite andb_true_r, Hkept. cbn [negb].
  apply andb_prop in Hkept. destruct Hkept as [_ Htruthy].
  destruct (dict_get_or textkey c JNull) as [| | | | |items|];
    try discriminate Htext; try discriminate Htruthy;
    try (do 2 eexists; reflexivity).
Qed.

Lemma for_each_analyze_item_raises
    (idkey textkey warning : string) (items : list json) (acc : list json)
    (w : world) :
  forallb (analysable idkey textkey) items = false ->
  exists w' e,
    for_each items (analyze_item idkey textkey warning) acc w = (w', Raise e).
Proof.
  revert acc w. induction items as [|item items IH]; intros acc w Hbad;
    [discriminate Hbad|].
  cbn [forallb] in Hbad. cbn [for_each]. unfold bind.
  destruct (analysable idkey textkey item) eqn:Hitem.
  - destruct (analyze_item_run idkey textkey warning acc item w Hitem)
      as (w1 & e1 & Hrun1 & _).
    rewrite Hrun1. apply IH. exact Hbad.
  - destruct (analyze_item_raises idkey textkey warning acc item w Hitem)
      as (w1 & e & Hrun1).
    rewrite Hrun1. do 2 eexists. reflexivity.
Qed.

(** X19: one transcript that cannot be analysed (not a dictionary, or kept with a
    text that is not a string) fails the whole request: the answer is 500,
    and the entries already made are dropped. *)
Theorem one_unusable_transcript_fails_the_request
    (req : request) (fields : list (string * json)) (books h5ps : list json)
    (w : world) :
  authenticated LMS_API_KEY req = true ->
  json_body req = Decoded (JObj fields) ->
  dict_get_or "books" fields (JList []) = JList books ->
  forallb book_analysable books = true ->
  dict_get_or "h5p_transcripts" fields (JList []) = JList h5ps ->
  forallb (analysable "h5pid" "transcript") h5ps = false ->
  exists w',
    route_analyze_course_content LMS_API_KEY req w
    = (w', Ok (jsonify
                 (error_body "An internal error occurred while analyzing course content.")
                 500)).
Proof.
  intros Hauth Hbody Hbooks Hbok Hh5p Hbad.
  unfold route_analyze_course_content.
  rewrite (require_api_key_authenticated _ _ _ Hauth).
  destruct req as [auth data]. cbn [json_body] in Hbody. subst data.
  unfold analyze_course_content. decode. unfold try_except, bind at 1.
  unfold log_info at 1, emit. cbn [json_body].
  unfold get, bind at 1 2, ret at 1 2. rewrite Hbooks, Hh5p.
  unfold bind at 1, iterate at 1, ret at 1.
  unfold bind at 1.
  match goal with
  | |- context [for_each books analyze_book [] ?w0] =>
      destruct (for_each_analyze_book books [] w0 Hbok)
        as (w1 & e1 & Hrun1 & He1)
  end.
  rewrite Hrun1.
  unfold bind at 1, iterate, ret at 1.
  change analyze_h5p
    with (analyze_item "h5pid" "transcript"
            "Skipping H5P due to missing ID or transcript: ").
  destruct (for_each_analyze_item_raises "h5pid" "transcript"
              "Skipping H5P due to missing ID or transcript: "
              h5ps [] w1 Hbad) as (w2 & e & Hrun2).
  unfold bind at 1. rewrite Hrun2.
  unfold bind, log_exception, emit, ret. eexists. reflexivity.
Qed.

(** ** The graph update *)

Lemma update_graph_with_new_data_run
    (course_id bookchapters h5pactivities questions : json) (n m : nat)
    (w : world) :
  size_of bookchapters = Some n ->
  size_of h5pactivities = Some m ->
  exists w',
    update_graph_with_new_data course_id
      (JObj [("bookchapters", bookchapters);
             ("h5pactivities", h5pactivities)]) questions w
    = (w', Ok (graph_update_message course_id n m)).
Proof.
  intros Hn Hm.
  unfold update_graph_with_new_data, graph_update_message, get, bind, ret,
    log_info, emit.
  cbn [dict_get_or dict_get String.eqb Ascii.eqb Bool.eqb].
  rewrite !len_size, Hn, Hm. rewrite <- string_app_assoc.
  eexists. reflexivity.
Qed.

(** X20: the graph update asks nothing of [courseid]: for every body that is an
    object whose [bookchapters] and [h5pactivities], when present, have a
    length, the answer is 200 with the message that names the course as it
    was given ([None] when absent) and the two lengths. *)
Theorem graph_update_accepts_any_course
    (req : request) (fields : list (string * json)) (n m : nat) (w : world) :
  authenticated LMS_API_KEY req = true ->
  json_body req = Decoded (JObj fields) ->
  size_of (dict_get_or "bookchapters" fields (JList [])) = Some n ->
  size_of (dict_get_or "h5pactivities" fields (JList [])) = Some m ->
  exists w',
    route_update_knowledge_graph LMS_API_KEY req w
    = (w',
       Ok (jsonify
             (JObj [("status", JStr "success");
                    ("message",
                     JStr (graph_update_message
                             (dict_get_or "courseid" fields JNull) n m))])
             200)).
Proof.
  intros Hauth Hbody Hn Hm.
  unfold route_update_knowledge_graph.
  rewrite (require_api_key_authenticated _ _ _ Hauth).
  destruct req as [auth data]. cbn [json_body] in Hbody. subst data.
  unfold update_knowledge_graph. decode. unfold try_except, bind at 1.
  unfold log_info at 1, emit. cbn [json_body].
  unfold get, bind at 1 2 3 4, ret at 1 2 3 4. cbv zeta.
  unfold bind at 1.
  match goal with
  | |- context [update_graph_with_new_data ?c (JObj [(_, ?b); (_, ?h)]) ?q ?w0] =>
      destruct (update_graph_with_new_data_run c b h q n m w0 Hn Hm)
        as (w1 & Hrun)
  end.
  rewrite Hrun. unfold bind, log_info, emit, ret. eexists. reflexivity.
Qed.

(** X21: a [bookchapters] or [h5pactivities] field without a length (null, a
    number, a boolean) is answered 500. *)
Theorem graph_update_unsized_is_internal_error
    (req : request) (fields : list (string * json)) (w : world) :
  authenticated LMS_API_KEY req = true ->
  json_body req = Decoded (JObj fields) ->
  size_of (dict_get_or "bookchapters" fields (JList [])) = None
  \/ size_of (dict_get_or "h5pactivities" fields (JList [])) = None ->
  exists w',
    route_update_knowledge_graph LMS_API_KEY req w
    = (w', Ok (jsonify
                 (error_body "An internal error occurred while updating the knowledge graph.")
                 500)).
Proof.
  intros Hauth Hbody Hbad.
  unfold route_update_knowledge_graph.
  rewrite (require_api_key_authenticated _ _ _ Hauth).
  destruct req as [auth data]. cbn [json_body] in Hbody. subst data.
  unfold update_knowledge_graph. decode. unfold try_except, bind at 1.
  unfold log_info at 1, emit. cbn [json_body].
  unfold get, bind at 1 2 3 4, ret at 1 2 3 4. cbv zeta.
  unfold bind at 1.
  unfold update_graph_with_new_data, get, bind, ret, log_info, emit.
  cbn [dict_get_or dict_get String.eqb Ascii.eqb Bool.eqb].
  rewrite !len_size.
  destruct (size_of (dict_get_or "bookchapters" fields (JList []))) as [n|].
  - destruct (size_of (dict_get_or "h5pactivities" fields (JList []))) as [m|].
    + destruct Hbad; discriminate.
    + unfold log_exception, emit. eexists. reflexivity.
  - unfold log_exception, emit. eexists. reflexivity.
Qed.

End CourseContent.

(* ================================================================== *)
(** * Every answer of the four routes *)
(* ================================================================== *)

Section Answers.
Context {fmt : Formatting} {rs : RandomSource}.

Lemma well_formed_error (message : string) (code : Z) :
  code = 400%Z \/ code = 401%Z \/ code = 500%Z ->
  well_formed_answer (jsonify (error_body message) code).
Proof.
  intros Hcode. right. split; [exact Hcode|]. split; [reflexivity|].
  exists message. reflexivity.
Qed.










Lemma require_api_key_answers
    (key : string) (f : request -> M response) (req : request) (w : world) :
  (exists w' r, f req w = (w', Ok r) /\ well_formed_answer r) ->
  exists w' r,
    require_api_key key f req w = (w', Ok r) /\ well_formed_answer r.
Proof.
  intros Hf. unfold require_api_key.
  destruct (authorization req) as [h|].
  2:{ do 2 eexists. split; [reflexivity|]. apply well_formed_error. auto. }
  destruct (h =? "")%string.
  { do 2 eexists. split; [reflexivity|]. apply well_formed_error. auto. }
  destruct (key =? "")%string.
  { do 2 eexists. split; [reflexivity|]. apply well_formed_error. auto. }
  destruct (str_split h) as [|a [|b [|c l]]];
    try (do 2 eexists; split; [reflexivity|]; apply well_formed_error; auto).
  destruct (negb (str_lower a =? "bearer")%string || negb (b =? key)%string).
  - do 2 eexists. split; [reflexivity|]. apply well_formed_error. auto.
  - exact Hf.
Qed.






End Answers.

(* ================================================================== *)
(** * The model on concrete requests *)
(* ================================================================== *)

#[local] Existing Instance Examples.plain_formatting.
#[local] Existing Instance Examples.counter.
Import Examples.

(** The scenario's promise fails on the code: [linear_equations] is not
    reported as mastered. *)
Lemma scenario_promise_fails :
  exists w1 w2 ks ks',
    trace_student_knowledge (JInt 42) (JInt 7) scenario_responses
      (JList []) (JList []) world0 = (w1, Ok ks)
    /\ trace_student_knowledge (JInt 42) (JInt 7) scenario_responses
         (JList []) (JList []) w1 = (w2, Ok ks')
    /\ ~ scenario_promise ks ks'.
Proof.
  do 4 eexists. split; [vm_compute; reflexivity|].
  split; [vm_compute; reflexivity|].
  intros [(mastered & Hm & Hin) _].
  cbn in Hm. injection Hm as <-.
  destruct Hin as [H | [H | []]]; discriminate H.
Qed.

(** With no evidence at all, [concept_A] is still reported as mastered. *)
Lemma concept_without_evidence_is_reported :
  exists w ks mastered,
    trace_student_knowledge (JInt 1) (JInt 1) (JList []) (JList [])
      (JList []) world0 = (w, Ok ks)
    /\ has_evidence "concept_A" (JList []) (JList []) (JList []) = false
    /\ field "concepts_mastered" ks = Some (JList mastered)
    /\ In (JStr "concept_A") mastered.
Proof.
  do 3 eexists. split; [vm_compute; reflexivity|]. split; [reflexivity|].
  split; [reflexivity|]. left. reflexivity.
Qed.

Lemma lists_and_estimate_are_fixed_witness :
  exists w ks,
    trace_student_knowledge (JInt 42) (JInt 7) scenario_responses
      (JList []) (JList []) world0 = (w, Ok ks)
    /\ field "concepts_struggling" ks = Some (JList [JStr "concept_C"]).
Proof.
  do 2 eexists. split; [vm_compute; reflexivity|].
  eapply (@lists_and_estimate_are_fixed Examples.plain_formatting
            Examples.counter (JInt 42) (JInt 7) scenario_responses
            (JList []) (JList []) world0).
  vm_compute; reflexivity.
Defined.

(** A successful answer that carries no knowledge state. *)
Lemma success_without_knowledge_state :
  exists w r,
    authenticated "secret" feedback_request = true
    /\ route_generate_feedback "secret" feedback_request world0 = (w, Ok r)
    /\ status_code r = 200%Z
    /\ field "status" (body r) = Some (JStr "success")
    /\ ~ carries_knowledge_state (body r).
Proof.
  do 2 eexists. split; [reflexivity|]. split; [vm_compute; reflexivity|].
  split; [reflexivity|]. split; [reflexivity|].
  intros (ks & mastered & struggling & x & Hks & _). discriminate Hks.
Qed.

Lemma success_carries_feedback_witness :
  exists w r,
    route_generate_feedback "secret" feedback_request world0 = (w, Ok r)
    /\ status_code r = 200%Z.
Proof.
  do 2 eexists. split; [vm_compute; reflexivity|].
  eapply (success_carries_feedback "secret" feedback_request world0);
    vm_compute; reflexivity.
Defined.

Lemma empty_sequences_succeed_witness :
  exists w r,
    route_generate_feedback "secret" empty_feedback_request world0 = (w, Ok r)
    /\ status_code r = 200%Z
    /\ field "status" (body r) = Some (JStr "success").
Proof.
  eapply (empty_sequences_succeed "secret" empty_feedback_request);
    reflexivity.
Defined.


Lemma falsy_identifier_is_rejected_as_absent_witness :
  snd (route_generate_feedback "secret" zero_attempt_request world0)
  = Ok missing_fields_response
  /\ status_code missing_fields_response = 400%Z
  /\ snd (route_generate_feedback "secret"
            (without_field "attemptid" zero_attempt_request) world0)
     = snd (route_generate_feedback "secret" zero_attempt_request world0).
Proof.
  apply (falsy_identifier_is_rejected_as_absent "secret" zero_attempt_request
           [("attemptid", JInt 0); ("userid", JInt 42); ("courseid", JInt 7)]
           "attemptid" (JInt 0) world0).
  - reflexivity.
  - reflexivity.
  - left. reflexivity.
  - reflexivity.
  - reflexivity.
Defined.

Lemma taxonomy_is_never_empty_witness :
  exists w r tags,
    route_analyze_question "secret" question_request world0 = (w, Ok r)
    /\ field "taxonomy" (body r) = Some (JList tags) /\ tags <> [].
Proof.
  do 2 eexists.
  assert (Hrun : route_analyze_question "secret" question_request world0
                 = (fst (route_analyze_question "secret" question_request
                           world0),
                    Ok {| body :=
                            match snd (route_analyze_question "secret"
                                         question_request world0) with
                            | Ok r => body r
                            | Raise _ => JNull
                            end;
                          status_code := 200 |}))
    by (vm_compute; reflexivity).
  destruct (proj2 (taxonomy_is_never_empty "secret") question_request world0
              _ _ eq_refl Hrun) as (tags & Htags & Hne).
  - vm_compute. reflexivity.
  - exists tags. split; [exact Hrun|]. split; [exact Htags | exact Hne].
Defined.

Lemma embedding_is_128_fresh_floats_witness :
  exists w r emb,
    route_analyze_question "secret" question_request world0 = (w, Ok r)
    /\ field "embedding" (body r) = Some (JList (map JFloat emb))
    /\ List.length emb = 128%nat /\ Forall in_unit_half_open emb.
Proof.
  do 2 eexists.
  assert (Hrun : route_analyze_question "secret" question_request world0
                 = (fst (route_analyze_question "secret" question_request
                           world0),
                    Ok {| body :=
                            match snd (route_analyze_question "secret"
                                         question_request world0) with
                            | Ok r => body r
                            | Raise _ => JNull
                            end;
                          status_code := 200 |}))
    by (vm_compute; reflexivity).
  destruct (proj1 (proj2 embedding_is_128_fresh_floats) _ _ "secret"
              question_request world0 _ _ eq_refl Hrun)
    as (emb & Hfield & Hlen & Hunit).
  - vm_compute. reflexivity.
  - exists emb. split; [exact Hrun|]. auto.
Defined.

(** ** The further properties on concrete requests *)

Lemma unauthenticated_request_stops_at_decorator_witness :
  exists record r,
    (forall (f : request -> M response) (w : world),
        require_api_key "secret" f anonymous_request w
        = ({| log := log w ++ [record]; gen := gen w |}, Ok r))
    /\ lr_logger record = AppLogger /\ lr_level record <> INFO
    /\ field "status" (body r) = Some (JStr "error")
    /\ (status_code r = 401%Z \/ (status_code r = 500%Z /\ "secret" = "")).
Proof.
  apply (unauthenticated_request_stops_at_decorator "secret" anonymous_request).
  reflexivity.
Defined.

Lemma bearer_header_authenticates_witness :
  authenticated "secret"
    {| authorization := Some "BEARER secret"; json_body := Decoded JNull |}
  = true.
Proof.
  apply (bearer_header_authenticates "secret" "BEARER" " "%char
           (Decoded JNull)).
  - discriminate.
  - reflexivity.
  - reflexivity.
  - reflexivity.
  - reflexivity.
Defined.

Lemma key_with_whitespace_authenticates_nothing_witness :
  authenticated "my secret" (bearer "my secret" (JObj [])) = false.
Proof.
  apply (key_with_whitespace_authenticates_nothing "my secret").
  reflexivity.
Defined.

Lemma knowledge_state_ignores_record_contents_witness :
  snd (trace_student_knowledge (JInt 42) (JInt 7) (JList correct_responses)
         (JList []) (JList []) world0)
  = snd (trace_student_knowledge (JInt 42) (JInt 7) (JList wrong_responses)
           (JList []) JNull world0).
Proof.
  apply (knowledge_state_ignores_record_contents (JInt 42) (JInt 7)
           correct_responses wrong_responses [] []); reflexivity.
Defined.

Lemma feedback_body_not_object_is_internal_error_witness :
  exists w r,
    route_generate_feedback "secret" (bearer "secret" JNull) world0 = (w, Ok r)
    /\ status_code r = 500%Z.
Proof.
  do 2 eexists. split.
  - apply (feedback_body_not_object_is_internal_error "secret"
             (bearer "secret" JNull) JNull world0).
    + reflexivity.
    + reflexivity.
    + intros fields H. discriminate H.
  - reflexivity.
Defined.

Lemma feedback_unsized_sequence_is_internal_error_witness :
  exists w',
    route_generate_feedback "secret" (bearer "secret" (JObj null_responses_fields))
      world0
    = (w', Ok (jsonify
                 (error_body "An internal error occurred while generating feedback.")
                 500)).
Proof.
  apply (feedback_unsized_sequence_is_internal_error "secret"
           (bearer "secret" (JObj null_responses_fields))
           null_responses_fields world0); try reflexivity.
  left. reflexivity.
Defined.

Lemma feedback_text_is_placeholder_witness :
  exists w r fields,
    route_generate_feedback "secret" feedback_request world0 = (w, Ok r)
    /\ json_body feedback_request = Decoded (JObj fields)
    /\ field "feedback" (body r) = Some (JStr (placeholder_feedback fields)).
Proof.
  do 2 eexists.
  assert (Hrun : route_generate_feedback "secret" feedback_request world0
                 = (fst (route_generate_feedback "secret" feedback_request
                           world0),
                    Ok {| body :=
                            match snd (route_generate_feedback "secret"
                                         feedback_request world0) with
                            | Ok r => body r
                            | Raise _ => JNull
                            end;
                          status_code := 200 |}))
    by (vm_compute; reflexivity).
  destruct (feedback_text_is_placeholder "secret" feedback_request world0
              _ _ eq_refl Hrun) as (fields & Hbody & Htext).
  - vm_compute. reflexivity.
  - exists fields. split; [exact Hrun|]. split; assumption.
Defined.

Lemma feedback_ignores_interactions_witness :
  exists w1 w2 r1 r2,
    route_generate_feedback "secret" (bearer "secret" (JObj feedback_fields))
      world0 = (w1, Ok r1)
    /\ route_generate_feedback "secret"
         (bearer "secret" (JObj other_feedback_fields)) world0 = (w2, Ok r2)
    /\ r1 = r2.
Proof.
  do 4 eexists. split; [vm_compute; reflexivity|].
  split; [vm_compute; reflexivity|].
  eapply (feedback_ignores_interactions "secret"
            (bearer "secret" (JObj feedback_fields))
            (bearer "secret" (JObj other_feedback_fields))
            feedback_fields other_feedback_fields world0 _ world0 _).
  - reflexivity.
  - reflexivity.
  - reflexivity.
  - reflexivity.
  - intros k [<- | [<- | [<- | [<- | []]]]]; reflexivity.
  - vm_compute. reflexivity.
  - vm_compute. reflexivity.
  - reflexivity.
  - reflexivity.
Defined.

Lemma analysis_ignores_letter_case_witness :
  snd (classify_bloom_level_for_question (JStr "DEFINE Algebra") JNull world0)
  = snd (classify_bloom_level_for_question (JStr "define algebra") JNull
           world0)
  /\ snd (extract_taxonomy_tags_for_text (JStr "DEFINE Algebra") world0)
     = snd (extract_taxonomy_tags_for_text (JStr "define algebra") world0).
Proof.
  apply (analysis_ignores_letter_case "DEFINE Algebra" "define algebra").
  reflexivity.
Defined.


Lemma question_text_not_string_is_internal_error_witness :
  exists w',
    route_analyze_question "secret"
      (bearer "secret" (JObj [("question", JObj numeric_question)])) world0
    = (w', Ok (jsonify
                 (error_body "An internal error occurred while analyzing the question.")
                 500)).
Proof.
  apply (question_text_not_string_is_internal_error "secret"
           (bearer "secret" (JObj [("question", JObj numeric_question)]))
           [("question", JObj numeric_question)] numeric_question world0);
    try reflexivity.
  discriminate.
Defined.

Lemma question_analysis_succeeds_witness :
  exists w' r,
    route_analyze_question "secret"
      (bearer "secret" (JObj [("question", JObj complete_question)])) world0
    = (w', Ok r)
    /\ status_code r = 200%Z
    /\ field "question_id" (body r) = Some (JInt 11)
    /\ field "cognitive_level" (body r) = Some (JInt 3).
Proof.
  destruct (question_analysis_succeeds "secret"
              (bearer "secret" (JObj [("question", JObj complete_question)]))
              [("question", JObj complete_question)] complete_question
              "Solve 2x + 3 = 7 by Solving Equations" world0)
    as (w' & Hrun & _).
  - reflexivity.
  - reflexivity.
  - reflexivity.
  - reflexivity.
  - reflexivity.
  - intros H. discriminate H.
  - reflexivity.
  - do 2 eexists. split; [exact Hrun|]. repeat split.
Defined.

Lemma course_content_skips_incomplete_items_witness :
  exists w' chapter_entries h5p_entries,
    route_analyze_course_content "secret" (bearer "secret" (JObj course_fields))
      world0
    = (w',
       Ok (jsonify
             (JObj [("status", JStr "success");
                    ("bookchapters", JList chapter_entries);
                    ("h5pactivities", JList h5p_entries)])
             200))
    /\ List.length chapter_entries = 1%nat
    /\ List.length h5p_entries = 1%nat.
Proof.
  destruct (course_content_skips_incomplete_items "secret"
              (bearer "secret" (JObj course_fields)) course_fields
              example_books example_h5ps world0)
    as (w' & ce & he & Hrun & Hce & Hhe); try reflexivity.
  exists w', ce, he. split; [exact Hrun|].
  cbn in Hce, Hhe.
  inversion Hce as [|? ? ? ? _ Hce']. inversion Hce'.
  inversion Hhe as [|? ? ? ? _ Hhe']. inversion Hhe'.
  split; reflexivity.
Defined.

Lemma course_content_not_iterable_is_internal_error_witness :
  exists w',
    route_analyze_course_content "secret"
      (bearer "secret" (JObj [("books", JNull)])) world0
    = (w', Ok (jsonify
                 (error_body "An internal error occurred while analyzing course content.")
                 500)).
Proof.
  apply (course_content_not_iterable_is_internal_error "secret"
           (bearer "secret" (JObj [("books", JNull)])) [("books", JNull)]
           world0); try reflexivity.
  left. reflexivity.
Defined.

Lemma one_unusable_transcript_fails_the_request_witness :
  exists w',
    route_analyze_course_content "secret"
      (bearer "secret" (JObj broken_course_fields)) world0
    = (w', Ok (jsonify
                 (error_body "An internal error occurred while analyzing course content.")
                 500)).
Proof.
  apply (one_unusable_transcript_fails_the_request "secret"
           (bearer "secret" (JObj broken_course_fields)) broken_course_fields
           example_books broken_h5ps world0); reflexivity.
Defined.

Lemma graph_update_accepts_any_course_witness :
  exists w',
    route_update_knowledge_graph "secret" (bearer "secret" (JObj [])) world0
    = (w',
       Ok (jsonify
             (JObj [("status", JStr "success");
                    ("message", JStr (graph_update_message JNull 0 0))])
             200)).
Proof.
  apply (graph_update_accepts_any_course "secret" (bearer "secret" (JObj []))
           [] 0 0 world0); reflexivity.
Defined.

Lemma graph_update_unsized_is_internal_error_witness :
  exists w',
    route_update_knowledge_graph "secret"
      (bearer "secret" (JObj [("courseid", JInt 7); ("bookchapters", JInt 3)]))
      world0
    = (w', Ok (jsonify
                 (error_body "An internal error occurred while updating the knowledge graph.")
                 500)).
Proof.
  apply (graph_update_unsized_is_internal_error "secret"
           (bearer "secret"
              (JObj [("courseid", JInt 7); ("bookchapters", JInt 3)]))
           [("courseid", JInt 7); ("bookchapters", JInt 3)] world0);
    try reflexivity.
  left. reflexivity.
Defined.



